(** * grid_tools: splitting a gmsh mesh into a body mesh and a facet mesh

    A shallow embedding of [source/grid_tools.py] and a verification of the
    statements its specification makes about it.

    The Python module has three functions:
    - [_create_meshio_mesh]  builds the sub-mesh of one cell type,
    - [_locate_file]         looks for a file below the working directory,
    - [generate_xdmf_mesh]   the pipeline from a [.geo] file to two [.xdmf]
                             files.

    Python objects live in a heap and are handled through references, the
    file system is a finite map from paths to files, and every function of
    the module is a computation in a state-and-exception monad over that
    world.  The parts of the [meshio], [os.path], [glob] and [subprocess]
    libraries that the module calls are modelled next to the code. *)

From Stdlib Require Import Floats.PrimFloat.
From Stdlib Require Import ZArith String Ascii List Bool Lia.
From stdpp Require Import base option list strings gmap fin_maps.

Local Open Scope Z_scope.
Local Open Scope nat_scope.

(** ** Exceptions and results *)

(** The Python exceptions that the modelled code can raise. *)
Inductive exn : Type :=
  | AssertionError
  | RuntimeError
  | KeyError
  | ValueError
  | TypeError
  | AttributeError
  | ReadError
  | UnboundLocalError
  | SubprocessError
  | OSError.

Inductive result (A : Type) : Type :=
  | Ok (a : A)
  | Raise (e : exn).

Arguments Ok {A} a.
Arguments Raise {A} e.

(** ** Python strings *)

Module Str.

(** [s.replace(old, new)] for a non-empty [old]: the occurrences of [old] are
    replaced from left to right, without overlap.  [skip] counts the
    characters of a matched occurrence that are still to be dropped. *)
Fixpoint replace_from (skip : nat) (old new s : string) : string :=
  match s with
  | EmptyString => EmptyString
  | String c s' =>
      match skip with
      | S k => replace_from k old new s'
      | O =>
          if String.prefix old s
          then String.append new (replace_from (String.length old - 1) old new s')
          else String c (replace_from 0 old new s')
      end
  end.

Definition replace (s old new : string) : string := replace_from 0 old new s.

(** [sub in s]: [sub] occurs in [s] as a substring. *)
Fixpoint contains (sub s : string) : bool :=
  String.prefix sub s ||
  match s with
  | EmptyString => false
  | String _ s' => contains sub s'
  end.

(** [s.rfind(c)] for a single character [c], as an integer: the index of the
    last occurrence, [-1] when there is none. *)
Fixpoint rfind_from (i : Z) (c : ascii) (s : string) (last : Z) : Z :=
  match s with
  | EmptyString => last
  | String d s' => rfind_from (i + 1) c s' (if Ascii.eqb c d then i else last)
  end.

Definition rfind (s : string) (c : ascii) : Z := rfind_from 0 c s (-1).

(** The slices [s[:n]] and [s[n:]] for [0 <= n]. *)
Definition take (n : nat) (s : string) : string := String.substring 0 n s.
Definition drop (n : nat) (s : string) : string :=
  String.substring n (String.length s - n) s.

End Str.

(** ** [os.path] *)

Module path.

(** [os.path.basename(p)] on POSIX: what follows the last slash. *)
Definition basename (p : string) : string :=
  Str.drop (Z.to_nat (Str.rfind p "/"%char + 1)) p.

(** The loop of [genericpath._splitext] that skips the leading dots of the
    file name: it answers whether a character other than a dot stands at
    one of the [n] positions from [i] on. *)
Fixpoint has_non_dot (n i : nat) (p : string) : bool :=
  match n with
  | O => false
  | S n' =>
      match String.get i p with
      | Some c => if Ascii.eqb c "."%char then has_non_dot n' (S i) p else true
      | None => true
      end
  end.

(** [os.path.splitext(p)] on POSIX: the extension starts at the last dot of
    the last component, unless that component consists of leading dots up to
    there. *)
Definition splitext (p : string) : string * string :=
  let sepIndex := Str.rfind p "/"%char in
  let dotIndex := Str.rfind p "."%char in
  if (sepIndex <? dotIndex)%Z
  then
    let filenameIndex := Z.to_nat (sepIndex + 1) in
    if has_non_dot (Z.to_nat dotIndex - filenameIndex) filenameIndex p
    then (Str.take (Z.to_nat dotIndex) p, Str.drop (Z.to_nat dotIndex) p)
    else (p, EmptyString)
  else (p, EmptyString).

End path.

(** ** The data model of [meshio] *)

(** A [numpy] array of shape (n, d) is the list of its n rows; an array of
    integers of shape (n,) is a list.  Coordinates are binary64 floats, point
    indices and physical tags are integers. *)
Abbreviation Points := (list (list float)).
Abbreviation Connectivity := (list (list Z)).
Abbreviation Tags := (list Z).

(** [meshio.CellBlock]: a cell type and the connectivity of its cells. *)
Record CellBlock : Type := mkCellBlock {
  cb_type : string;
  cb_data : Connectivity
}.

(** [meshio.Mesh], restricted to the attributes the module touches:
    [cell_data] maps a field name to one array per cell block. *)
Record Mesh : Type := mkMesh {
  points : Points;
  cells : list CellBlock;
  cell_data : gmap string (list Tags)
}.

(** [Mesh.cells_dict] and, for one field, [Mesh.cell_data_dict]: the blocks
    are visited in order and the arrays of one cell type are concatenated. *)
Definition dict_extend {A : Type} (d : gmap string (list A)) (k : string)
    (v : list A) : gmap string (list A) :=
  <[k := default [] (d !! k) ++ v]> d.

Definition cells_dict (m : Mesh) : gmap string Connectivity :=
  foldl (fun d cb => dict_extend d (cb_type cb) (cb_data cb)) ∅ (cells m).

Definition field_dict (cs : list CellBlock) (value_list : list Tags)
    : gmap string Tags :=
  foldl (fun d vc => dict_extend d (cb_type (snd vc)) (fst vc)) ∅
        (zip value_list cs).

Definition cell_data_dict (m : Mesh) : gmap string (gmap string Tags) :=
  field_dict (cells m) <$> cell_data m.

(** The Python test [k in d] on a dictionary. *)
Definition has_key {A : Type} (d : gmap string A) (k : string) : bool :=
  bool_decide (is_Some (d !! k)).

(** [Mesh.get_cells_type(cell_type)]: the cells of all blocks of that type;
    an empty array when there is no such block. *)
Definition get_cells_type (m : Mesh) (cell_type : string) : Connectivity :=
  concat (cb_data <$> filter (fun c => cb_type c = cell_type) (cells m)).

(** [numpy.concatenate] of a list of arrays: it raises [ValueError] on the
    empty list. *)
Definition np_concatenate {A : Type} (arrays : list (list A)) : result (list A) :=
  match arrays with
  | [] => Raise ValueError
  | _ => Ok (concat arrays)
  end.

(** [Mesh.get_cell_data(name, cell_type)]: the arrays of the field [name]
    that belong to the blocks of that type, concatenated. *)
Definition get_cell_data (m : Mesh) (name cell_type : string) : result Tags :=
  match cell_data m !! name with
  | None => Raise KeyError
  | Some value_list =>
      np_concatenate
        (snd <$> filter (fun cd : CellBlock * Tags => cb_type (fst cd) = cell_type)
                        (zip (cells m) value_list))
  end.

(** The consistency check of the [Mesh] constructor: every field has one
    array per cell block, as long as the block. *)
Definition block_data_ok (cs : list CellBlock) (data : list Tags) : bool :=
  Nat.eqb (length data) (length cs) &&
  forallb (fun dc : Tags * CellBlock =>
             Nat.eqb (length (fst dc)) (length (cb_data (snd dc))))
          (zip data cs).

Definition cell_data_ok (cs : list CellBlock) (cd : gmap string (list Tags)) : bool :=
  forallb (fun kv : string * list Tags => block_data_ok cs (snd kv)) (map_to_list cd).

(** [tol] of [Mesh.prune_z_0]: the binary64 value of the literal [1.0e-13]. *)
Definition tol : float := 0x1.c25c268497682p-44%float.

(** [numpy.all(numpy.abs(points[:, 2]) < tol)], on an array with a third
    column. *)
Definition z_all_below_tol (pts : Points) : bool :=
  forallb (fun p => match p !! 2 with
                    | Some z => PrimFloat.ltb (PrimFloat.abs z) tol
                    | None => false
                    end) pts.

(** [points.shape[0]] and [points.shape[1]]. *)
Definition shape0 (pts : Points) : nat := length pts.
Definition shape1 (pts : Points) : nat :=
  match pts with
  | [] => 0
  | p :: _ => length p
  end.

(** The slice [points[:, :2]]. *)
Definition first_two_columns (pts : Points) : Points := take 2 <$> pts.

(** The points of a mesh object after [Mesh.prune_z_0()]: the third
    component has been removed if there are points, they have three
    components and the third one is 0 everywhere, up to the tolerance. *)
Definition pruned_points (pts : Points) : Points :=
  if Nat.eqb (shape0 pts) 0 then pts
  else if Nat.eqb (shape1 pts) 3 && z_all_below_tol pts
       then first_two_columns pts
       else pts.

(** ** The world: heap, file system and the log of actions *)

(** A reference to a [Mesh] object: its address in the heap, where objects
    are allocated one after the other. *)
Definition ref : Type := nat.

(** Files are known by what they hold: a gmsh mesh, a mesh written in the
    XDMF format, or anything else (a geometry file, for one). *)
Inductive file : Type :=
  | MshFile (m : Mesh)
  | XdmfFile (m : Mesh)
  | OtherFile.

(** The actions of a run that the specification speaks about, logged in the
    order in which they happen: a run of gmsh, the parsing of a mesh file
    into a new object, the construction of a mesh object by the constructor
    of [meshio.Mesh], and the writing of a file. *)
Inductive event : Type :=
  | EvGmsh (geo_file : string)
  | EvRead (msh_file : string) (mesh : ref)
  | EvMesh (mesh : ref)
  | EvWrite (filename : string) (mesh : ref).

Record World : Type := mkWorld {
  heap : list Mesh;
  fs : gmap string file;
  trace : list event
}.

Definition set_heap (h : list Mesh) (w : World) : World :=
  {| heap := h; fs := fs w; trace := trace w |}.
Definition set_fs (f : gmap string file) (w : World) : World :=
  {| heap := heap w; fs := f; trace := trace w |}.
Definition log (e : event) (w : World) : World :=
  {| heap := heap w; fs := fs w; trace := trace w ++ [e] |}.

(** ** The monad of Python computations *)

(** A computation runs in a world and ends with a value or an exception; the
    world it leaves is kept in both cases. *)
Definition M (A : Type) : Type := World -> result A * World.

Definition ret {A : Type} (a : A) : M A := fun w => (Ok a, w).
Definition raise {A : Type} (e : exn) : M A := fun w => (Raise e, w).
Definition bind {A B : Type} (c : M A) (k : A -> M B) : M B :=
  fun w =>
    match c w with
    | (Ok a, w') => k a w'
    | (Raise e, w') => (Raise e, w')
    end.

Declare Scope py_scope.
Delimit Scope py_scope with py.
Notation "x <- c ;; k" := (bind c (fun x => k))
  (at level 100, c at next level, right associativity) : py_scope.
Notation "c ;;; k" := (bind c (fun _ => k))
  (at level 100, right associativity) : py_scope.
Local Open Scope py_scope.

(** [assert b]. *)
Definition assert (b : bool) : M unit :=
  if b then ret tt else raise AssertionError.

(** A pure computation that may raise. *)
Definition lift {A : Type} (r : result A) : M A := fun w => (r, w).

Definition modify (f : World -> World) : M unit := fun w => (Ok tt, f w).

(** ** [meshio] on the heap and the file system *)

(** The string literals of the module. *)
Definition gmsh_physical : string := "gmsh:physical".
Definition cell_markers : string := "cell_markers".
Definition facet_markers : string := "facet_markers".
Definition line : string := "line".
Definition triangle : string := "triangle".
Definition tetra : string := "tetra".

(** The object behind a reference; a reference to nothing is not an
    instance of [meshio.Mesh]. *)
Definition deref (r : ref) (e : exn) : M Mesh :=
  fun w =>
    match heap w !! r with
    | Some m => (Ok m, w)
    | None => (Raise e, w)
    end.

(** [meshio.Mesh(points=..., cells={...}, cell_data={...})]: the dictionary
    [cells] becomes the list of cell blocks, the cell data is checked against
    it, and the new object is allocated. *)
Definition Mesh_init (pts : Points) (cs : list (string * Connectivity))
    (cd : gmap string (list Tags)) : M ref :=
  let blocks := (fun kv => mkCellBlock (fst kv) (snd kv)) <$> cs in
  if cell_data_ok blocks cd
  then fun w =>
         let r := length (heap w) in
         (Ok r, log (EvMesh r) (set_heap (heap w ++ [mkMesh pts blocks cd]) w))
  else raise ValueError.

(** The assignment [self.points = pts] on a mesh object.  It rebinds the
    attribute of that object; no array is written in place, here or anywhere
    in the module, which is why arrays are values and only the mesh objects
    live in the heap. *)
Definition set_points (self : ref) (pts : Points) : M unit :=
  m <- deref self AttributeError ;;
  modify (fun w => set_heap (<[self := mkMesh pts (cells m) (cell_data m)]> (heap w)) w).

(** [Mesh.prune_z_0(tol=1.0e-13)]. *)
Definition prune_z_0 (self : ref) : M unit :=
  m <- deref self AttributeError ;;
  if Nat.eqb (shape0 (points m)) 0 then ret tt
  else if Nat.eqb (shape1 (points m)) 3 && z_all_below_tol (points m)
       then set_points self (first_two_columns (points m))
       else ret tt.

(** [meshio.read(filename)]: the mesh the file holds, as a new object.  The
    reader builds the object with the constructor of [meshio.Mesh], whose
    check refuses cell data that does not fit the cell blocks; a path that
    holds no mesh is refused by the reader itself. *)
Definition meshio_read (filename : string) : M ref :=
  fun w =>
    match fs w !! filename with
    | Some (MshFile m) =>
        if cell_data_ok (cells m) (cell_data m)
        then
          let r := length (heap w) in
          (Ok r, log (EvRead filename r) (set_heap (heap w ++ [m]) w))
        else (Raise ValueError, w)
    | _ => (Raise ReadError, w)
    end.

(** ** [_create_meshio_mesh] *)

Definition supported_cell_types : list string := [line; triangle; tetra].

(** Lines 27 to 42: the name of the data of the sub-mesh. *)
Definition data_name_of (m : Mesh) (cell_type : string) : result string :=
  if has_key (cells_dict m) triangle && negb (has_key (cells_dict m) tetra)
  then
    if String.eqb cell_type triangle then Ok cell_markers
    else if String.eqb cell_type line then Ok facet_markers
    else Raise RuntimeError
  else if has_key (cells_dict m) triangle && has_key (cells_dict m) tetra
  then
    if String.eqb cell_type tetra then Ok cell_markers
    else if String.eqb cell_type triangle then Ok facet_markers
    else Raise RuntimeError
  else Raise RuntimeError.

Definition _create_meshio_mesh (mesh : ref) (cell_type : string)
    (prune_z : bool) : M ref :=
  (* input check *)
  m <- deref mesh AssertionError ;;
  assert (bool_decide (cell_type ∈ supported_cell_types)) ;;;
  (* extract cells *)
  let cells := get_cells_type m cell_type in
  (* extract physical regions *)
  assert (has_key (cell_data_dict m) gmsh_physical) ;;;
  cell_data <- lift (get_cell_data m gmsh_physical cell_type) ;;
  (* specify data name *)
  data_name <- lift (data_name_of m cell_type) ;;
  (* create mesh object *)
  out_mesh <- Mesh_init (points m) [(cell_type, cells)]
                        {[ data_name := [cell_data] ]} ;;
  (* remove z-component *)
  (if prune_z then prune_z_0 out_mesh else ret tt) ;;;
  ret out_mesh.

(** ** Dimension and cell types (lines 93 to 110 of [generate_xdmf_mesh]) *)

(** [k in mesh.cell_data_dict["gmsh:physical"]]; the subscript raises
    [KeyError] when the mesh has no such field. *)
Definition physical_has (m : Mesh) (k : string) : result bool :=
  match cell_data_dict m !! gmsh_physical with
  | None => Raise KeyError
  | Some d => Ok (has_key d k)
  end.

Definition assert_pure (r : result bool) : result unit :=
  match r with
  | Ok true => Ok tt
  | Ok false => Raise AssertionError
  | Raise e => Raise e
  end.

(** determine dimension *)
Definition determine_dimension (m : Mesh) : result nat :=
  if has_key (cells_dict m) triangle && negb (has_key (cells_dict m) tetra)
  then match assert_pure (physical_has m line) with
       | Ok _ => Ok 2
       | Raise e => Raise e
       end
  else if has_key (cells_dict m) triangle && has_key (cells_dict m) tetra
  then match assert_pure (physical_has m triangle) with
       | Ok _ => Ok 3
       | Raise e => Raise e
       end
  else Raise RuntimeError.

(** The local variables [facet_type], [cell_type] (here [body_type]) and
    [prune_z]. *)
Record CellTypes : Type := mkCellTypes {
  facet_type : string;
  body_type : string;
  prune : bool
}.

(** specify cell types; with another [dim] the variables would be unbound. *)
Definition specify_cell_types (dim : nat) : result CellTypes :=
  if Nat.eqb dim 2 then Ok (mkCellTypes line triangle true)
  else if Nat.eqb dim 3 then Ok (mkCellTypes triangle tetra false)
  else Raise UnboundLocalError.

(** ** [_locate_file] and [generate_xdmf_mesh] *)

(** [os.path.exists(p)]. *)
Definition path_exists (p : string) : M bool :=
  fun w => (Ok (has_key (fs w) p), w).

(** [try: c except E: h], where [handles] tells the exceptions of class E. *)
Definition try_except {A : Type} (c : M A) (handles : exn -> bool) (h : M A) : M A :=
  fun w =>
    match c w with
    | (Raise e, w') => if handles e then h w' else (Raise e, w')
    | r => r
    end.

Definition is_SubprocessError (e : exn) : bool :=
  match e with SubprocessError => true | _ => false end.

Section Pipeline.

(** The collaborators outside of Python: [glob.glob(pattern)], which lists
    the paths of the file system that match a pattern, in the order of the
    enumeration; the run of [gmsh geo_file -3], which changes the file system
    and ends well or with an exception of [subprocess.run]; and the
    environment of a file write: [write_error f filename] is the exception
    with which writing the path [filename] fails in the file system [f] (a
    directory that does not exist, for one), and [None] when the write goes
    through. *)
Variable glob : gmap string file -> string -> list string.
Variable gmsh : string -> gmap string file -> gmap string file * option exn.
Variable write_error : gmap string file -> string -> option exn.

(** [meshio.write(filename, mesh, data_format="XML")]: the file holds the
    mesh as the object is at that time.  A write is a whole-file operation:
    one that fails raises its exception and leaves the file system as it
    was. *)
Definition meshio_write (filename : string) (mesh : ref) : M unit :=
  m <- deref mesh AttributeError ;;
  fun w =>
    match write_error (fs w) filename with
    | None =>
        (Ok tt, log (EvWrite filename mesh)
                    (set_fs (<[filename := XdmfFile m]> (fs w)) w))
    | Some e => (Raise e, w)
    end.

Definition glob_glob (pattern : string) : M (list string) :=
  fun w => (Ok (glob (fs w) pattern), w).

(** [subprocess.run(["gmsh", geo_file, "-3"], check=True)]. *)
Definition subprocess_run_gmsh (geo_file : string) : M unit :=
  fun w =>
    let w' := log (EvGmsh geo_file) (set_fs (fst (gmsh geo_file (fs w))) w) in
    match snd (gmsh geo_file (fs w)) with
    | None => (Ok tt, w')
    | Some e => (Raise e, w')
    end.

Definition _locate_file (basename : string) : M (option string) :=
  let file_extension := snd (path.splitext basename) in
  files1 <- glob_glob (String.append "../*/*/*" file_extension) ;;
  files2 <- glob_glob (String.append "./*/*" file_extension) ;;
  files3 <- glob_glob (String.append "./*/*/*" file_extension) ;;
  let files := files1 ++ files2 ++ files3 in
  let file := List.find (Str.contains basename) files in
  match file with
  | Some f => b <- path_exists f ;; assert b ;;; ret file
  | None => ret file
  end.

Definition generate_xdmf_mesh (geo_file : string) : M (string * string) :=
  (* input check *)
  b <- path_exists geo_file ;;
  assert b ;;;
  assert (String.eqb (snd (path.splitext geo_file)) ".geo") ;;;
  let basename := path.basename geo_file in
  (* generate msh file *)
  msh_file <- _locate_file (Str.replace basename ".geo" ".msh") ;;
  match msh_file with
  | None => try_except (subprocess_run_gmsh geo_file) is_SubprocessError
                       (raise RuntimeError)
  | Some _ => ret tt
  end ;;;
  (* read msh file; [msh_file] is still what [_locate_file] returned, and
     [path.exists(None)] raises [TypeError] *)
  msh_file <- match msh_file with
              | None => raise TypeError
              | Some p => b <- path_exists p ;; assert b ;;; ret p
              end ;;
  mesh <- meshio_read msh_file ;;
  m <- deref mesh AttributeError ;;
  (* determine dimension *)
  dim <- lift (determine_dimension m) ;;
  (* specify cell types *)
  ct <- lift (specify_cell_types dim) ;;
  (* extract facet mesh (codimension one) *)
  facet_mesh <- _create_meshio_mesh mesh (facet_type ct) (prune ct) ;;
  let xdmf_facet_marker_file := Str.replace msh_file ".msh" "_facet_markers.xdmf" in
  meshio_write xdmf_facet_marker_file facet_mesh ;;;
  (* extract facet mesh (codimension one) *)
  cell_mesh <- _create_meshio_mesh mesh (body_type ct) (prune ct) ;;
  let xdmf_file := Str.replace msh_file ".msh" ".xdmf" in
  meshio_write xdmf_file cell_mesh ;;;
  ret (xdmf_file, xdmf_facet_marker_file).

End Pipeline.

(** * Concrete meshes and runs *)

(** ** Meshes *)

(** The unit triangle in the plane z = 0, with its three edges: a planar
    model as gmsh writes it, with tag 1 on the triangle and tag 2 on the
    boundary. *)
Definition mesh2d : Mesh :=
  {| points := [[0; 0; 0]; [1; 0; 0]; [0; 1; 0]]%float;
     cells := [mkCellBlock line [[0; 1]; [1; 2]; [2; 0]]%Z;
               mkCellBlock triangle [[0; 1; 2]]%Z];
     cell_data := {[ gmsh_physical := [[2; 2; 2]; [1]]%Z ]} |}.

(** The same triangle in the plane z = 1. *)
Definition mesh2d_lifted : Mesh :=
  {| points := [[0; 0; 1]; [1; 0; 1]; [0; 1; 1]]%float;
     cells := cells mesh2d;
     cell_data := cell_data mesh2d |}.

(** The same triangle with a line block that has no cells. *)
Definition mesh2d_no_lines : Mesh :=
  {| points := points mesh2d;
     cells := [mkCellBlock line []; mkCellBlock triangle [[0; 1; 2]]%Z];
     cell_data := {[ gmsh_physical := [[]; [1]]%Z ]} |}.

(** The unit tetrahedron with two of its faces and one of its edges, each
    block with its tags. *)
Definition mesh3d : Mesh :=
  {| points := [[0; 0; 0]; [1; 0; 0]; [0; 1; 0]; [0; 0; 1]]%float;
     cells := [mkCellBlock line [[0; 1]]%Z;
               mkCellBlock triangle [[0; 1; 2]; [0; 1; 3]]%Z;
               mkCellBlock tetra [[0; 1; 2; 3]]%Z];
     cell_data := {[ gmsh_physical := [[3]; [2; 2]; [1]]%Z ]} |}.

(** Tetra cells only. *)
Definition mesh_tetra_only : Mesh :=
  {| points := points mesh3d;
     cells := [mkCellBlock tetra [[0; 1; 2; 3]]%Z];
     cell_data := {[ gmsh_physical := [[1]]%Z ]} |}.

(** A world with one mesh object and no files. *)
Definition world_of (m : Mesh) : World :=
  {| heap := [m]; fs := ∅; trace := [] |}.

(** ** File systems and collaborators *)

(** [glob] in a directory tree where the pattern [./*/*.msh] matches the
    paths [found] and the other patterns match nothing. *)
Definition glob_finds (found : list string) (f : gmap string file)
    (pattern : string) : list string :=
  if String.eqb pattern "./*/*.msh" then found else [].

(** A run of gmsh that ends well and writes the mesh [m] to [msh_file]. *)
Definition gmsh_writes (msh_file : string) (m : Mesh) (geo_file : string)
    (f : gmap string file) : gmap string file * option exn :=
  (<[msh_file := MshFile m]> f, None).

(** A directory tree in which every write goes through. *)
Definition all_writable (f : gmap string file) (filename : string) : option exn :=
  None.

(** A directory tree in which the paths below one of [dirs] can be written,
    and a write elsewhere fails for want of its directory
    ([FileNotFoundError], an [OSError]). *)
Definition writable_below (dirs : list string) (f : gmap string file)
    (filename : string) : option exn :=
  if existsb (fun d => String.prefix d filename) dirs then None else Some OSError.

(** A geometry file and the mesh file that an earlier run of gmsh left. *)
Definition world_with_mesh_file (geo_file msh_file : string) (m : Mesh) : World :=
  {| heap := [];
     fs := {[ geo_file := OtherFile; msh_file := MshFile m ]};
     trace := [] |}.

(** A geometry file and no mesh file. *)
Definition world_without_mesh_file (geo_file : string) : World :=
  {| heap := []; fs := {[ geo_file := OtherFile ]}; trace := [] |}.

(** The run on a planar model whose mesh file is found in [./mesh]. *)
Definition run2d : result (string * string) * World :=
  generate_xdmf_mesh (glob_finds ["./mesh/box.msh"])
                     (gmsh_writes "./geo/box.msh" mesh2d)
                     all_writable
                     "./geo/box.geo"
                     (world_with_mesh_file "./geo/box.geo" "./mesh/box.msh" mesh2d).

(** The run on a model whose mesh file does not exist yet: gmsh writes it. *)
Definition run_without_mesh_file : result (string * string) * World :=
  generate_xdmf_mesh (glob_finds [])
                     (gmsh_writes "./geo/box.msh" mesh2d)
                     all_writable
                     "./geo/box.geo"
                     (world_without_mesh_file "./geo/box.geo").

(** The run on a model whose mesh file lies in a directory named [a.msh],
    in a tree where the directories [./a.xdmf] and [./a_facet_markers.xdmf]
    exist too, so that the writes go through. *)
Definition run_in_msh_directory : result (string * string) * World :=
  generate_xdmf_mesh (glob_finds ["./a.msh/box.msh"])
                     (gmsh_writes "./geo/box.msh" mesh3d)
                     (writable_below ["./geo/"; "./a.msh/"; "./a.xdmf/";
                                      "./a_facet_markers.xdmf/"])
                     "./geo/box.geo"
                     (world_with_mesh_file "./geo/box.geo" "./a.msh/box.msh" mesh3d).

(** The same run in a tree that has the directories [./geo] and [./a.msh]
    only. *)
Definition run_in_msh_directory_alone : result (string * string) * World :=
  generate_xdmf_mesh (glob_finds ["./a.msh/box.msh"])
                     (gmsh_writes "./geo/box.msh" mesh3d)
                     (writable_below ["./geo/"; "./a.msh/"])
                     "./geo/box.geo"
                     (world_with_mesh_file "./geo/box.geo" "./a.msh/box.msh" mesh3d).

(** The same run in a tree that has the directory [./a_facet_markers.xdmf]
    and not the directory [./a.xdmf]. *)
Definition run_in_msh_directory_facets_only : result (string * string) * World :=
  generate_xdmf_mesh (glob_finds ["./a.msh/box.msh"])
                     (gmsh_writes "./geo/box.msh" mesh3d)
                     (writable_below ["./geo/"; "./a.msh/";
                                      "./a_facet_markers.xdmf/"])
                     "./geo/box.geo"
                     (world_with_mesh_file "./geo/box.geo" "./a.msh/box.msh" mesh3d).

(** * Verification *)

(** ** Paths and strings *)

Example basename_of_path : path.basename "/home/user/geo/box.geo" = "box.geo"%string.
Proof. reflexivity. Qed.

Example splitext_of_path :
  path.splitext "./geo.d/box.geo" = ("./geo.d/box", ".geo")%string.
Proof. reflexivity. Qed.

Example splitext_of_hidden_file : path.splitext "./.geo" = ("./.geo", "")%string.
Proof. reflexivity. Qed.

Example replace_all_occurrences :
  Str.replace "box.geo.geo" ".geo" ".msh" = "box.msh.msh"%string.
Proof. reflexivity. Qed.

(** On a path with one occurrence of [.msh], at its end, [replace] changes
    the suffix only; the lemmas below lead to [replace_msh_suffix]. *)

Lemma append_cons (c : ascii) (s t : string) :
  String.append (String c s) t = String c (String.append s t).
Proof. reflexivity. Qed.

Lemma append_empty_r (s : string) : String.append s EmptyString = s.
Proof.
  induction s as [| c s IH]; [reflexivity |]. now rewrite append_cons, IH.
Qed.

Lemma append_nil_l (t : string) : String.append EmptyString t = t.
Proof. reflexivity. Qed.

Lemma prefix_cons (a b : ascii) (s1 s2 : string) :
  String.prefix (String a s1) (String b s2)
  = if ascii_dec a b then String.prefix s1 s2 else false.
Proof. reflexivity. Qed.

Lemma prefix_nil_l (s : string) : String.prefix EmptyString s = true.
Proof. now destruct s. Qed.

(** The first four characters of [x ++ ".msh"] are those of [x ++ ".ms"]
    when [x] is not empty. *)
Lemma prefix_msh_longer (c : ascii) (s : string) :
  String.prefix ".msh" (String c (String.append s ".ms")) = false →
  String.prefix ".msh" (String c (String.append s ".msh")) = false.
Proof.
  destruct s as [| c1 [| c2 [| c3 s]]];
    rewrite ?append_cons, ?append_nil_l, !prefix_cons, ?prefix_nil_l;
    repeat match goal with
           | |- context [ascii_dec ?a ?b] => destruct (ascii_dec a b)
           end;
    intros; congruence.
Qed.

Lemma contains_cons (sub : string) (c : ascii) (s : string) :
  Str.contains sub (String c s) = String.prefix sub (String c s) || Str.contains sub s.
Proof. reflexivity. Qed.

Lemma replace_from_cons (old new : string) (c : ascii) (s : string) :
  Str.replace_from 0 old new (String c s)
  = if String.prefix old (String c s)
    then String.append new (Str.replace_from (String.length old - 1) old new s)
    else String c (Str.replace_from 0 old new s).
Proof. reflexivity. Qed.

(** On a path in which [.msh] occurs as the suffix only, [replace] changes
    the suffix and nothing else. *)
Lemma replace_msh_suffix (stem new : string) :
  Str.contains ".msh" (String.append stem ".ms") = false →
  Str.replace (String.append stem ".msh") ".msh" new = String.append stem new.
Proof.
  unfold Str.replace. induction stem as [| c s IH]; intros H.
  - cbn. apply append_empty_r.
  - rewrite append_cons, contains_cons in H.
    apply orb_false_elim in H as [Hhere Hlater].
    rewrite !append_cons, replace_from_cons.
    rewrite (prefix_msh_longer c s Hhere), (IH Hlater). reflexivity.
Qed.

(** ** Dictionaries built from the cell blocks *)

(** What the specification calls "the mesh contains cells of type [t]": one
    of the cell blocks has that type. *)
Definition has_cells (m : Mesh) (t : string) : Prop :=
  t ∈ cb_type <$> cells m.

(** "The tag field has an entry for [t]": the field ["gmsh:physical"] exists
    and one of its arrays belongs to a block of type [t]. *)
Definition has_tag_entry (m : Mesh) (t : string) : Prop :=
  ∃ value_list cb tags,
    cell_data m !! gmsh_physical = Some value_list ∧
    (cb, tags) ∈ zip (cells m) value_list ∧ cb_type cb = t.

(** The invariant that the [Mesh] constructor establishes. *)
Definition consistent (m : Mesh) : Prop :=
  cell_data_ok (cells m) (cell_data m) = true.

Lemma has_key_true {A : Type} (d : gmap string A) (k : string) :
  has_key d k = true ↔ is_Some (d !! k).
Proof. unfold has_key. apply bool_decide_eq_true. Qed.

Lemma has_key_false {A : Type} (d : gmap string A) (k : string) :
  has_key d k = false ↔ d !! k = None.
Proof.
  unfold has_key. rewrite bool_decide_eq_false.
  rewrite <- eq_None_not_Some. reflexivity.
Qed.

Section DictOfBlocks.

Context {X A : Type} (key : X → string) (val : X → list A).

Lemma dict_extend_is_Some (d : gmap string (list A)) (k k' : string) (v : list A) :
  is_Some (dict_extend d k v !! k') ↔ k = k' ∨ is_Some (d !! k').
Proof.
  unfold dict_extend. rewrite lookup_insert_is_Some.
  split; intros [H | H]; eauto.
  - destruct H as [_ H]. now right.
  - destruct (decide (k = k')); eauto.
Qed.

Lemma foldl_dict_extend_is_Some (l : list X) (d : gmap string (list A)) (k : string) :
  is_Some (foldl (fun d x => dict_extend d (key x) (val x)) d l !! k)
  ↔ is_Some (d !! k) ∨ k ∈ key <$> l.
Proof.
  revert d. induction l as [| x l IH]; intros d; simpl.
  - rewrite elem_of_nil. tauto.
  - rewrite IH, dict_extend_is_Some, elem_of_cons. intuition congruence.
Qed.

End DictOfBlocks.

Lemma cells_dict_has_key (m : Mesh) (t : string) :
  has_key (cells_dict m) t = true ↔ has_cells m t.
Proof.
  rewrite has_key_true. unfold cells_dict, has_cells.
  rewrite (foldl_dict_extend_is_Some cb_type cb_data).
  rewrite lookup_empty, is_Some_alt. tauto.
Qed.

Lemma cells_dict_no_key (m : Mesh) (t : string) :
  has_key (cells_dict m) t = false ↔ ¬ has_cells m t.
Proof.
  rewrite <- cells_dict_has_key. destruct (has_key (cells_dict m) t); split; congruence.
Qed.

Lemma elem_of_zip_swap {A B : Type} (l : list A) (k : list B) (a : A) (b : B) :
  (a, b) ∈ zip l k ↔ (b, a) ∈ zip k l.
Proof.
  revert k. induction l as [| x l IH]; intros [| y k]; simpl;
    rewrite ?elem_of_nil, ?elem_of_cons; try tauto.
  rewrite IH. intuition congruence.
Qed.

Lemma field_dict_has_key (cs : list CellBlock) (value_list : list Tags) (t : string) :
  has_key (field_dict cs value_list) t = true
  ↔ ∃ cb tags, (cb, tags) ∈ zip cs value_list ∧ cb_type cb = t.
Proof.
  rewrite has_key_true. unfold field_dict.
  rewrite (foldl_dict_extend_is_Some (fun vc : Tags * CellBlock => cb_type (snd vc)) fst).
  rewrite lookup_empty, is_Some_alt, list_elem_of_fmap. split.
  - intros [[] | [[tags cb] [-> H]]]. exists cb, tags.
    split; [now apply elem_of_zip_swap | reflexivity].
  - intros (cb & tags & H & <-). right. exists (tags, cb).
    split; [reflexivity | now apply elem_of_zip_swap].
Qed.

Lemma cell_data_dict_has_key (m : Mesh) (f : string) :
  has_key (cell_data_dict m) f = has_key (cell_data m) f.
Proof.
  unfold has_key, cell_data_dict. apply bool_decide_ext.
  rewrite lookup_fmap, fmap_is_Some. reflexivity.
Qed.

Lemma physical_has_true (m : Mesh) (t : string) :
  physical_has m t = Ok true ↔ has_tag_entry m t.
Proof.
  unfold physical_has, cell_data_dict, has_tag_entry. rewrite lookup_fmap.
  destruct (cell_data m !! gmsh_physical) as [vl |]; simpl.
  - split.
    + intros H. assert (Hk : has_key (field_dict (cells m) vl) t = true) by congruence.
      apply field_dict_has_key in Hk as (cb & tags & ? & ?). eauto 6.
    + intros (vl' & cb & tags & [= <-] & ? & ?). f_equal.
      apply field_dict_has_key. eauto.
  - split; [discriminate | intros (? & ? & ? & ? & _); discriminate].
Qed.

(** ** Dimension and cell-type inference *)

(** Lines 93 to 110 as one function: the dimension and the cell types. *)
Definition inference (m : Mesh) : result (nat * CellTypes) :=
  match determine_dimension m with
  | Ok dim =>
      match specify_cell_types dim with
      | Ok ct => Ok (dim, ct)
      | Raise e => Raise e
      end
  | Raise e => Raise e
  end.

Lemma physical_has_cases (m : Mesh) (t : string) :
  (physical_has m t = Ok true ∧ has_tag_entry m t) ∨
  ((physical_has m t = Ok false ∨ physical_has m t = Raise KeyError) ∧
   ¬ has_tag_entry m t).
Proof.
  destruct (physical_has m t) as [[|] | e] eqn:H.
  - left. split; [reflexivity | now apply physical_has_true].
  - right. split; [now left |]. rewrite <- physical_has_true. congruence.
  - right. assert (e = KeyError) as ->.
    { unfold physical_has in H. destruct (cell_data_dict m !! gmsh_physical); congruence. }
    split; [now right |]. rewrite <- physical_has_true. congruence.
Qed.

Lemma cells_dict_cases (m : Mesh) (t : string) :
  (has_key (cells_dict m) t = true ∧ has_cells m t) ∨
  (has_key (cells_dict m) t = false ∧ ¬ has_cells m t).
Proof.
  destruct (has_key (cells_dict m) t) eqn:H.
  - left. split; [reflexivity | now apply cells_dict_has_key].
  - right. split; [reflexivity | now apply cells_dict_no_key].
Qed.

(** C1. The inference of the dimension and of the cell types is the decision
    table of the specification: a mesh with triangle cells, without tetra
    cells and with tags for its lines has dimension 2, body type triangle,
    facet type line, and its points are to be pruned; a mesh with triangle
    and tetra cells and with tags for its triangles has dimension 3, body
    type tetra, facet type triangle, and is not pruned; on every other mesh
    the inference ends with an exception. *)
Theorem dimension_inference_table (m : Mesh) :
  (has_cells m triangle → ¬ has_cells m tetra → has_tag_entry m line →
   inference m =
     Ok (2, {| facet_type := line; body_type := triangle; prune := true |})) ∧
  (has_cells m triangle → has_cells m tetra → has_tag_entry m triangle →
   inference m =
     Ok (3, {| facet_type := triangle; body_type := tetra; prune := false |})) ∧
  (¬ (has_cells m triangle ∧ ¬ has_cells m tetra ∧ has_tag_entry m line) →
   ¬ (has_cells m triangle ∧ has_cells m tetra ∧ has_tag_entry m triangle) →
   ∃ e, inference m = Raise e).
Proof.
  unfold inference, determine_dimension.
  destruct (cells_dict_cases m triangle) as [[-> Htri] | [-> Htri]];
    destruct (cells_dict_cases m tetra) as [[-> Htet] | [-> Htet]]; simpl;
    (split; [| split]); try tauto.
  - intros _ _ Htag. apply physical_has_true in Htag. now rewrite Htag.
  - intros _ H3.
    destruct (physical_has_cases m triangle) as [[_ Htag] | [[-> | ->] _]];
      simpl; eauto.
    tauto.
  - intros _ _ Htag. apply physical_has_true in Htag. now rewrite Htag.
  - intros H2 _.
    destruct (physical_has_cases m line) as [[_ Htag] | [[-> | ->] _]];
      simpl; eauto.
    tauto.
  - eauto.
  - eauto.
Qed.

(** ** Runs of [_create_meshio_mesh] *)

(** The checks of [_create_meshio_mesh] in their order, with the name and
    the tags that the sub-mesh gets when they pass. *)
Definition create_checks (m : Mesh) (cell_type : string) : result (string * Tags) :=
  if bool_decide (cell_type ∈ supported_cell_types)
  then
    if has_key (cell_data_dict m) gmsh_physical
    then
      match get_cell_data m gmsh_physical cell_type with
      | Ok tags =>
          match data_name_of m cell_type with
          | Ok name =>
              if Nat.eqb (length tags) (length (get_cells_type m cell_type))
              then Ok (name, tags)
              else Raise ValueError
          | Raise e => Raise e
          end
      | Raise e => Raise e
      end
    else Raise AssertionError
  else Raise AssertionError.

(** The object that a successful call allocates. *)
Definition sub_mesh (m : Mesh) (cell_type : string) (prune_z : bool)
    (name : string) (tags : Tags) : Mesh :=
  {| points := if prune_z then pruned_points (points m) else points m;
     cells := [mkCellBlock cell_type (get_cells_type m cell_type)];
     cell_data := {[ name := [tags] ]} |}.

Lemma set_heap_same (w : World) : set_heap (heap w) w = w.
Proof. now destruct w. Qed.

Lemma prune_z_0_run (self : ref) (w : World) (m : Mesh) :
  heap w !! self = Some m →
  prune_z_0 self w =
    (Ok tt,
     set_heap (<[self := mkMesh (pruned_points (points m)) (cells m) (cell_data m)]>
                 (heap w)) w).
Proof.
  intros Hm. unfold prune_z_0, set_points, bind, deref, pruned_points, modify, ret.
  rewrite Hm.
  assert (Hid : set_heap (<[self := mkMesh (points m) (cells m) (cell_data m)]> (heap w)) w = w).
  { rewrite list_insert_id; [apply set_heap_same | now destruct m]. }
  destruct (Nat.eqb (shape0 (points m)) 0); [now rewrite Hid |].
  destruct (Nat.eqb (shape1 (points m)) 3 && z_all_below_tol (points m)).
  - now rewrite Hm.
  - now rewrite Hid.
Qed.

Lemma singleton_data_ok (cell_type name : string) (cs : Connectivity) (tags : Tags) :
  cell_data_ok ((fun kv => mkCellBlock (fst kv) (snd kv)) <$> [(cell_type, cs)])
               ({[ name := [tags] ]} : gmap string (list Tags))
  = Nat.eqb (length tags) (length cs).
Proof.
  unfold cell_data_ok. rewrite map_to_list_singleton.
  unfold block_data_ok. simpl. now rewrite !andb_true_r.
Qed.

Lemma create_run (mesh : ref) (cell_type : string) (prune_z : bool) (w : World) :
  _create_meshio_mesh mesh cell_type prune_z w =
    match heap w !! mesh with
    | None => (Raise AssertionError, w)
    | Some m =>
        match create_checks m cell_type with
        | Ok (name, tags) =>
            (Ok (length (heap w)),
             log (EvMesh (length (heap w)))
                 (set_heap (heap w ++ [sub_mesh m cell_type prune_z name tags]) w))
        | Raise e => (Raise e, w)
        end
    end.
Proof.
  unfold _create_meshio_mesh, create_checks, bind, deref.
  destruct (heap w !! mesh) as [m |]; [| reflexivity].
  unfold assert, lift, ret, raise.
  destruct (bool_decide (cell_type ∈ supported_cell_types)); [| reflexivity].
  destruct (has_key (cell_data_dict m) gmsh_physical); [| reflexivity].
  destruct (get_cell_data m gmsh_physical cell_type) as [tags | e]; [| reflexivity].
  destruct (data_name_of m cell_type) as [name | e]; [| reflexivity].
  unfold Mesh_init. rewrite singleton_data_ok.
  destruct (Nat.eqb (length tags) (length (get_cells_type m cell_type)));
    [| reflexivity].
  destruct prune_z; [| reflexivity].
  erewrite prune_z_0_run by (simpl; apply list_lookup_middle; reflexivity).
  unfold sub_mesh, log, set_heap. simpl.
  rewrite insert_app_r_alt, Nat.sub_diag by lia. reflexivity.
Qed.

Lemma create_checks_Ok (m : Mesh) (cell_type name : string) (tags : Tags) :
  create_checks m cell_type = Ok (name, tags) →
  cell_type ∈ supported_cell_types ∧
  has_key (cell_data m) gmsh_physical = true ∧
  get_cell_data m gmsh_physical cell_type = Ok tags ∧
  data_name_of m cell_type = Ok name ∧
  length tags = length (get_cells_type m cell_type).
Proof.
  unfold create_checks. case_bool_decide as Hct; [| discriminate].
  rewrite cell_data_dict_has_key.
  destruct (has_key (cell_data m) gmsh_physical); [| discriminate].
  destruct (get_cell_data m gmsh_physical cell_type) as [tags' |]; [| discriminate].
  destruct (data_name_of m cell_type) as [name' |]; [| discriminate].
  destruct (Nat.eqb (length tags') (length (get_cells_type m cell_type))) eqn:Hlen;
    [| discriminate].
  intros [= -> ->]. apply Nat.eqb_eq in Hlen. auto.
Qed.

(** A successful call returns a new reference to the object [sub_mesh]. *)
Lemma create_Ok (w : World) (mesh : ref) (m : Mesh) (cell_type : string)
    (prune_z : bool) (out : ref) (w' : World) :
  heap w !! mesh = Some m →
  _create_meshio_mesh mesh cell_type prune_z w = (Ok out, w') →
  ∃ name tags,
    create_checks m cell_type = Ok (name, tags) ∧
    out = length (heap w) ∧
    w' = log (EvMesh out)
             (set_heap (heap w ++ [sub_mesh m cell_type prune_z name tags]) w) ∧
    heap w' !! out = Some (sub_mesh m cell_type prune_z name tags).
Proof.
  intros Hm. rewrite create_run, Hm.
  destruct (create_checks m cell_type) as [[name tags] | e]; [| discriminate].
  intros [= <- <-]. exists name, tags. repeat split.
  simpl. now apply list_lookup_middle.
Qed.

(** A failed call leaves the world as it was. *)
Lemma create_Raise (w : World) (mesh : ref) (cell_type : string)
    (prune_z : bool) (e : exn) (w' : World) :
  _create_meshio_mesh mesh cell_type prune_z w = (Raise e, w') → w' = w.
Proof.
  rewrite create_run. destruct (heap w !! mesh) as [m |]; [| congruence].
  destruct (create_checks m cell_type) as [[name tags] | e']; congruence.
Qed.

(** ** The name of the tag field *)

Lemma data_name_of_Ok (m : Mesh) (cell_type name : string) :
  data_name_of m cell_type = Ok name →
  has_cells m triangle ∧
  ((¬ has_cells m tetra ∧
    ((cell_type = triangle ∧ name = cell_markers) ∨
     (cell_type = line ∧ name = facet_markers))) ∨
   (has_cells m tetra ∧
    ((cell_type = tetra ∧ name = cell_markers) ∨
     (cell_type = triangle ∧ name = facet_markers)))).
Proof.
  unfold data_name_of.
  destruct (cells_dict_cases m triangle) as [[-> Htri] | [-> Htri]];
    destruct (cells_dict_cases m tetra) as [[-> Htet] | [-> Htet]]; simpl;
    try discriminate.
  - destruct (String.eqb_spec cell_type tetra) as [-> |]; [intros [= <-]; tauto |].
    destruct (String.eqb_spec cell_type triangle) as [-> |]; [intros [= <-]; tauto |].
    discriminate.
  - destruct (String.eqb_spec cell_type triangle) as [-> |]; [intros [= <-]; tauto |].
    destruct (String.eqb_spec cell_type line) as [-> |]; [intros [= <-]; tauto |].
    discriminate.
Qed.

Lemma inference_Ok (m : Mesh) (dim : nat) (ct : CellTypes) :
  inference m = Ok (dim, ct) →
  (¬ has_cells m tetra ∧ dim = 2 ∧
   ct = {| facet_type := line; body_type := triangle; prune := true |}) ∨
  (has_cells m tetra ∧ dim = 3 ∧
   ct = {| facet_type := triangle; body_type := tetra; prune := false |}).
Proof.
  unfold inference, determine_dimension.
  destruct (cells_dict_cases m triangle) as [[-> Htri] | [-> Htri]];
    destruct (cells_dict_cases m tetra) as [[-> Htet] | [-> Htet]]; simpl;
    try discriminate.
  - destruct (assert_pure (physical_has m triangle)); [| discriminate].
    simpl. intros [= <- <-]. right. auto.
  - destruct (assert_pure (physical_has m line)); [| discriminate].
    simpl. intros [= <- <-]. left. auto.
Qed.

Lemma role_names (m : Mesh) (dim : nat) (ct : CellTypes) (t name : string) :
  inference m = Ok (dim, ct) → data_name_of m t = Ok name →
  (t = body_type ct → name = cell_markers) ∧
  (t = facet_type ct → name = facet_markers).
Proof.
  intros Hinf Hname. apply data_name_of_Ok in Hname as [_ Hname].
  apply inference_Ok in Hinf as [(Htet & _ & ->) | (Htet & _ & ->)]; simpl;
    destruct Hname as [(Htet' & [[-> ->] | [-> ->]]) | (Htet' & [[-> ->] | [-> ->]])];
    try tauto; split; intros Heq; try reflexivity; discriminate Heq.
Qed.

(** The statement of C2 about the sub-mesh behind [out] in the world [w']. *)
Definition named_by_role (m : Mesh) (cell_type : string) (w' : World) (out : ref)
    : Prop :=
  ∃ sub name tags,
    heap w' !! out = Some sub ∧
    cell_data sub = {[ name := [tags] ]} ∧
    (∀ dim ct, inference m = Ok (dim, ct) →
       (cell_type = body_type ct → name = cell_markers) ∧
       (cell_type = facet_type ct → name = facet_markers)) ∧
    (cell_type = triangle → ¬ has_cells m tetra → name = cell_markers) ∧
    (cell_type = triangle → has_cells m tetra → name = facet_markers).

(** C2. The tag field of an extracted sub-mesh is named after the role of
    the cell type in the mesh, not after the cell type: [cell_markers] for
    the body type and [facet_markers] for the facet type of the inferred
    dimension; triangles get [cell_markers] in a mesh without tetra cells and
    [facet_markers] in a mesh with tetra cells. *)
Theorem data_name_follows_role (w : World) (mesh : ref) (m : Mesh)
    (cell_type : string) (prune_z : bool) (out : ref) (w' : World) :
  heap w !! mesh = Some m →
  _create_meshio_mesh mesh cell_type prune_z w = (Ok out, w') →
  named_by_role m cell_type w' out.
Proof.
  intros Hm Hrun.
  destruct (create_Ok _ _ _ _ _ _ _ Hm Hrun) as (name & tags & Hchk & _ & _ & Hout).
  apply create_checks_Ok in Hchk as (_ & _ & _ & Hname & _).
  exists (sub_mesh m cell_type prune_z name tags), name, tags.
  split; [exact Hout |]. split; [reflexivity |].
  split; [intros dim ct Hinf; now apply (role_names m dim ct) |].
  apply data_name_of_Ok in Hname as [_ Hname]. split.
  - intros -> Htet.
    destruct Hname as [(_ & [[_ ->] | [Heq _]]) | (Htet' & _)];
      [reflexivity | discriminate Heq | tauto].
  - intros -> Htet.
    destruct Hname as [(Htet' & _) | (_ & [[Heq _] | [_ ->]])];
      [tauto | discriminate Heq | reflexivity].
Qed.

(** ** The shape of the sub-mesh *)

Lemma length_pruned_points (pts : Points) :
  length (pruned_points pts) = length pts.
Proof.
  unfold pruned_points, first_two_columns.
  repeat match goal with |- context [if ?b then _ else _] => destruct b end;
    now rewrite ?length_fmap.
Qed.








(** ** The points of the sub-mesh *)

Lemma pruned_points_pruned (pts : Points) :
  pts ≠ [] → shape1 pts = 3 → z_all_below_tol pts = true →
  pruned_points pts = first_two_columns pts.
Proof.
  intros Hne H3 Hz. unfold pruned_points. rewrite H3, Hz. simpl.
  destruct pts; [congruence | reflexivity].
Qed.

Lemma pruned_points_kept (pts : Points) :
  shape1 pts ≠ 3 ∨ z_all_below_tol pts = false → pruned_points pts = pts.
Proof.
  intros H. unfold pruned_points.
  destruct (Nat.eqb (shape0 pts) 0); [reflexivity |].
  destruct (Nat.eqb_spec (shape1 pts) 3) as [H3 | H3]; simpl; [| reflexivity].
  destruct H as [H | ->]; [contradiction | reflexivity].
Qed.

(** The statement of the amended C6 about the sub-mesh behind [out]. *)
Definition points_of_sub_mesh (m : Mesh) (prune_z : bool) (w' : World) (out : ref)
    : Prop :=
  ∃ sub,
    heap w' !! out = Some sub ∧
    length (points sub) = length (points m) ∧
    (prune_z = false → points sub = points m) ∧
    (prune_z = true → points m ≠ [] → shape1 (points m) = 3 →
     z_all_below_tol (points m) = true →
     points sub = first_two_columns (points m) ∧
     ∀ i x y z, points m !! i = Some [x; y; z] → points sub !! i = Some [x; y]) ∧
    (prune_z = true → shape1 (points m) ≠ 3 ∨ z_all_below_tol (points m) = false →
     points sub = points m).

(** C6, amended. The sub-mesh has as many points as the mesh.  Without
    pruning they are the points of the mesh.  With pruning the third
    coordinate is removed from every point when the mesh has points, they
    have three coordinates and every third coordinate is below the tolerance
    [1.0e-13] in absolute value; when the points do not have three
    coordinates or a third coordinate is not below the tolerance, the points
    are those of the mesh, third coordinate included. *)
Theorem prune_z_only_when_flat (w : World) (mesh : ref) (m : Mesh)
    (cell_type : string) (prune_z : bool) (out : ref) (w' : World) :
  heap w !! mesh = Some m →
  _create_meshio_mesh mesh cell_type prune_z w = (Ok out, w') →
  points_of_sub_mesh m prune_z w' out.
Proof.
  intros Hm Hrun.
  destruct (create_Ok _ _ _ _ _ _ _ Hm Hrun) as (name & tags & _ & _ & _ & Hout).
  exists (sub_mesh m cell_type prune_z name tags).
  split; [exact Hout |]. simpl. split; [| split; [| split]].
  - destruct prune_z; [apply length_pruned_points | reflexivity].
  - now intros ->.
  - intros -> Hne H3 Hz. rewrite pruned_points_pruned by assumption.
    split; [reflexivity |]. intros i x y z Hp.
    unfold first_two_columns. now rewrite list_lookup_fmap, Hp.
  - intros -> H. now apply pruned_points_kept.
Qed.

(** ** The source mesh is left alone *)

(** C9. A call of [_create_meshio_mesh], pruning or not, successful or not,
    leaves the source mesh as it was, points, cells and cell data; so it does
    every other object there was, and the file system.  The object it returns
    is a new one. *)
Theorem source_mesh_unchanged (w : World) (mesh : ref) (m : Mesh)
    (cell_type : string) (prune_z : bool) :
  heap w !! mesh = Some m →
  heap (snd (_create_meshio_mesh mesh cell_type prune_z w)) !! mesh = Some m ∧
  (∀ r m', heap w !! r = Some m' →
           heap (snd (_create_meshio_mesh mesh cell_type prune_z w)) !! r = Some m') ∧
  fs (snd (_create_meshio_mesh mesh cell_type prune_z w)) = fs w ∧
  (∀ out, fst (_create_meshio_mesh mesh cell_type prune_z w) = Ok out →
          out ≠ mesh ∧ heap w !! out = None).
Proof.
  intros Hm. rewrite create_run, Hm.
  destruct (create_checks m cell_type) as [[name tags] | e]; simpl.
  - assert (Hold : ∀ r m', heap w !! r = Some m' →
        (heap w ++ [sub_mesh m cell_type prune_z name tags]) !! r = Some m').
    { intros r m' Hr. rewrite lookup_app_l; [exact Hr |].
      now apply lookup_lt_Some in Hr. }
    split; [now apply Hold |]. split; [exact Hold |]. split; [reflexivity |].
    intros out [= <-]. apply lookup_lt_Some in Hm.
    split; [lia |]. apply lookup_ge_None. lia.
  - split; [exact Hm |]. split; [auto |]. split; [reflexivity |]. discriminate.
Qed.

(** ** When [_create_meshio_mesh] raises *)

Lemma has_tag_entry_has_cells (m : Mesh) (t : string) :
  has_tag_entry m t → has_cells m t.
Proof.
  intros (vl & cb & tags & _ & Hin & <-). unfold has_cells.
  apply list_elem_of_fmap_2. eapply elem_of_zip_l. exact Hin.
Qed.

Lemma get_cell_data_Ok_iff (m : Mesh) (t : string) :
  (∃ tags, get_cell_data m gmsh_physical t = Ok tags) ↔ has_tag_entry m t.
Proof.
  unfold get_cell_data, has_tag_entry.
  destruct (cell_data m !! gmsh_physical) as [vl |].
  - set (P := fun cd : CellBlock * list Z => cb_type (fst cd) = t).
    destruct (filter P (zip (cells m) vl)) as [| [cb tags] l] eqn:Hf; simpl.
    + split; [intros [? ?]; discriminate |].
      intros (vl' & cb & tags & [= <-] & Hin & Ht).
      assert (Hcb : (cb, tags) ∈ filter P (zip (cells m) vl)).
      { apply list_elem_of_filter. split; assumption. }
      rewrite Hf in Hcb. now apply elem_of_nil in Hcb.
    + split; [| eauto]. intros _.
      assert (Hcb : (cb, tags) ∈ filter P (zip (cells m) vl)).
      { rewrite Hf. apply elem_of_cons. now left. }
      apply list_elem_of_filter in Hcb as [Ht Hin]. eauto 6.
  - split; [intros [? ?]; discriminate |].
    intros (? & ? & ? & ? & _). discriminate.
Qed.

Lemma tags_length_blocks (t : string) (cs : list CellBlock) (vl : list Tags) :
  block_data_ok cs vl = true →
  length (concat (snd <$> filter (fun cd : CellBlock * list Z => cb_type (fst cd) = t)
                                 (zip cs vl)))
  = length (concat (cb_data <$> filter (fun c => cb_type c = t) cs)).
Proof.
  unfold block_data_ok. revert vl.
  induction cs as [| c cs IH]; intros [| v vl]; simpl; try reflexivity;
    try discriminate.
  intros H. apply andb_prop in H as [Hlen H]. apply andb_prop in H as [Hv H].
  apply Nat.eqb_eq in Hv.
  assert (IH' := IH vl). rewrite Hlen, H in IH'. specialize (IH' eq_refl).
  rewrite !filter_cons. simpl.
  destruct (decide (cb_type c = t)); simpl; [| exact IH'].
  rewrite !length_app. f_equal; [exact Hv | exact IH'].
Qed.

Lemma consistent_field (m : Mesh) (f : string) (vl : list Tags) :
  consistent m → cell_data m !! f = Some vl → block_data_ok (cells m) vl = true.
Proof.
  unfold consistent, cell_data_ok. intros Hok Hf.
  rewrite forallb_forall in Hok.
  apply (Hok (f, vl)). apply list_elem_of_In. now apply elem_of_map_to_list.
Qed.

Lemma consistent_tags_length (m : Mesh) (t : string) (tags : Tags) :
  consistent m → get_cell_data m gmsh_physical t = Ok tags →
  length tags = length (get_cells_type m t).
Proof.
  intros Hok. unfold get_cell_data, get_cells_type, np_concatenate.
  destruct (cell_data m !! gmsh_physical) as [vl |] eqn:Hf; [| discriminate].
  pose proof (tags_length_blocks t _ _ (consistent_field _ _ _ Hok Hf)) as Hlen.
  destruct (snd <$> filter _ (zip (cells m) vl)); [discriminate |].
  intros [= <-]. exact Hlen.
Qed.

Lemma data_name_of_Raise (m : Mesh) (cell_type : string) (e : exn) :
  data_name_of m cell_type = Raise e →
  cell_type ∈ supported_cell_types → has_cells m cell_type →
  ¬ has_cells m triangle ∨ (has_cells m tetra ∧ cell_type = line).
Proof.
  unfold data_name_of, supported_cell_types.
  rewrite !elem_of_cons, elem_of_nil.
  destruct (cells_dict_cases m triangle) as [[-> Htri] | [-> Htri]];
    destruct (cells_dict_cases m tetra) as [[-> Htet] | [-> Htet]]; simpl;
    try tauto.
  - destruct (String.eqb_spec cell_type tetra); [discriminate |].
    destruct (String.eqb_spec cell_type triangle); [discriminate |]. tauto.
  - destruct (String.eqb_spec cell_type triangle); [discriminate |].
    destruct (String.eqb_spec cell_type line); [discriminate |].
    intros _ [? | [? | [-> | []]]] ?; tauto.
Qed.

Lemma create_checks_Raise_iff (m : Mesh) (cell_type : string) :
  consistent m →
  ((∃ e, create_checks m cell_type = Raise e) ↔
   cell_type ∉ supported_cell_types ∨ ¬ has_tag_entry m cell_type ∨
   ¬ has_cells m triangle ∨ (has_cells m tetra ∧ cell_type = line)).
Proof.
  intros Hok. unfold create_checks.
  case_bool_decide as Hct; [| split; eauto].
  rewrite cell_data_dict_has_key.
  destruct (has_key (cell_data m) gmsh_physical) eqn:Hkey.
  2:{ split; [| eauto]. intros _. right. left.
      intros (vl & _ & _ & Hf & _). apply has_key_false in Hkey. congruence. }
  destruct (get_cell_data m gmsh_physical cell_type) as [tags | e] eqn:Hget.
  2:{ split; [| eauto]. intros _. right. left.
      rewrite <- get_cell_data_Ok_iff, Hget. intros [? ?]; discriminate. }
  assert (Htag : has_tag_entry m cell_type).
  { apply get_cell_data_Ok_iff. eauto. }
  destruct (data_name_of m cell_type) as [name | e] eqn:Hname.
  2:{ split; [| eauto]. intros _. right. right.
      eapply data_name_of_Raise; eauto using has_tag_entry_has_cells. }
  rewrite (consistent_tags_length _ _ _ Hok Hget), Nat.eqb_refl.
  split; [intros [? ?]; discriminate |].
  apply data_name_of_Ok in Hname as [Htri Hname].
  intros [? | [? | [? | [Htet ->]]]]; try contradiction.
  destruct Hname as [[? _] | [_ [[Heq _] | [Heq _]]]];
    [contradiction | discriminate Heq | discriminate Heq].
Qed.

(** C7, amended. On a mesh whose tag arrays fit its cell blocks, the call
    raises exactly when the cell type is not one of line, triangle and tetra,
    or the tag field gmsh:physical has no entry for the cell type, or the
    mesh has no triangle cells, or the cell type is line while the mesh has
    tetra cells.  The number of cells of the type plays no part: a block
    without cells is extracted like any other. *)
Theorem create_raises_iff (w : World) (mesh : ref) (m : Mesh)
    (cell_type : string) (prune_z : bool) :
  heap w !! mesh = Some m → consistent m →
  ((∃ e, fst (_create_meshio_mesh mesh cell_type prune_z w) = Raise e) ↔
   cell_type ∉ supported_cell_types ∨ ¬ has_tag_entry m cell_type ∨
   ¬ has_cells m triangle ∨ (has_cells m tetra ∧ cell_type = line)).
Proof.
  intros Hm Hok. rewrite <- (create_checks_Raise_iff m cell_type Hok).
  rewrite create_run, Hm.
  destruct (create_checks m cell_type) as [[name tags] | e]; simpl.
  - split; intros [? ?]; discriminate.
  - split; eauto.
Qed.

(** ** When the two sub-meshes can be made *)

Lemma consistent_has_tag_entry (m : Mesh) (t : string) :
  consistent m → is_Some (cell_data m !! gmsh_physical) →
  has_cells m t → has_tag_entry m t.
Proof.
  intros Hok [vl Hf] Hcells.
  pose proof (consistent_field _ _ _ Hok Hf) as Hblocks.
  unfold block_data_ok in Hblocks. apply andb_prop in Hblocks as [Hlen _].
  apply Nat.eqb_eq in Hlen.
  apply list_elem_of_fmap in Hcells as (cb & -> & Hcb).
  apply list_elem_of_lookup in Hcb as [i Hi].
  destruct (lookup_lt_is_Some_2 vl i) as [tags Htags].
  { rewrite Hlen. now apply lookup_lt_Some in Hi. }
  exists vl, cb, tags. split; [exact Hf |]. split; [| reflexivity].
  apply list_elem_of_lookup. exists i.
  apply lookup_zip_with_Some. eauto.
Qed.

Lemma inference_Ok_tags (m : Mesh) (dim : nat) (ct : CellTypes) :
  inference m = Ok (dim, ct) →
  has_cells m triangle ∧ has_tag_entry m (facet_type ct) ∧
  has_cells m (body_type ct) ∧
  (has_cells m tetra → facet_type ct ≠ line ∧ body_type ct ≠ line).
Proof.
  unfold inference, determine_dimension.
  destruct (cells_dict_cases m triangle) as [[-> Htri] | [-> Htri]];
    destruct (cells_dict_cases m tetra) as [[-> Htet] | [-> Htet]]; simpl;
    try discriminate.
  - destruct (physical_has_cases m triangle) as [[-> Htag] | [[-> | ->] _]];
      simpl; try discriminate.
    intros [= <- <-]. simpl. repeat split; try assumption; discriminate.
  - destruct (physical_has_cases m line) as [[-> Htag] | [[-> | ->] _]];
      simpl; try discriminate.
    intros [= <- <-]. simpl. repeat split; try assumption; contradiction.
Qed.

(** On a mesh whose tag arrays fit its cell blocks and whose dimension is
    inferred, the checks pass for the facet type and for the body type. *)
Lemma inference_checks_pass (m : Mesh) (dim : nat) (ct : CellTypes) :
  consistent m → inference m = Ok (dim, ct) →
  (∃ name tags, create_checks m (facet_type ct) = Ok (name, tags)) ∧
  (∃ name tags, create_checks m (body_type ct) = Ok (name, tags)).
Proof.
  intros Hok Hinf.
  pose proof (inference_Ok_tags _ _ _ Hinf) as (Htri & Hfacet & Hbody & Hline).
  assert (Hfield : is_Some (cell_data m !! gmsh_physical)).
  { destruct Hfacet as (vl & _ & _ & Hf & _). eauto. }
  assert (Hbody' := consistent_has_tag_entry _ _ Hok Hfield Hbody).
  assert (Hsup : facet_type ct ∈ supported_cell_types ∧
                 body_type ct ∈ supported_cell_types).
  { apply inference_Ok in Hinf as [(_ & _ & ->) | (_ & _ & ->)]; simpl;
      unfold supported_cell_types; split; repeat constructor. }
  destruct Hsup as [Hsf Hsb].
  split.
  - destruct (create_checks m (facet_type ct)) as [[name tags] | e] eqn:Hchk;
      [eauto |].
    exfalso.
    assert (Hr : ∃ e, create_checks m (facet_type ct) = Raise e) by eauto.
    apply (create_checks_Raise_iff m _ Hok) in Hr
      as [? | [? | [? | [Htet Heq]]]]; try contradiction.
    now destruct (Hline Htet).
  - destruct (create_checks m (body_type ct)) as [[name tags] | e] eqn:Hchk;
      [eauto |].
    exfalso.
    assert (Hr : ∃ e, create_checks m (body_type ct) = Raise e) by eauto.
    apply (create_checks_Raise_iff m _ Hok) in Hr
      as [? | [? | [? | [Htet Heq]]]]; try contradiction.
    now destruct (Hline Htet).
Qed.

(** ** Reasoning about computations *)

(** [holds c w Q]: the result and the final world of [c], run in [w],
    satisfy [Q]. *)
Definition holds {A : Type} (c : M A) (w : World)
    (Q : result A → World → Prop) : Prop :=
  Q (fst (c w)) (snd (c w)).

Lemma holds_bind {A B : Type} (c : M A) (k : A → M B) (w : World)
    (Q : result B → World → Prop) :
  holds c w (fun r w1 => match r with
                         | Ok a => holds (k a) w1 Q
                         | Raise e => Q (Raise e) w1
                         end) →
  holds (bind c k) w Q.
Proof. unfold holds, bind. now destruct (c w) as [[a | e] w1]. Qed.

Lemma holds_run {A : Type} (c : M A) (w : World) (Q : result A → World → Prop)
    (r : result A) (w1 : World) :
  c w = (r, w1) → Q r w1 → holds c w Q.
Proof. unfold holds. now intros ->. Qed.

(** ** Runs of [generate_xdmf_mesh] *)

Arguments Str.replace : simpl never.
Arguments Str.contains : simpl never.
Arguments path.splitext : simpl never.
Arguments path.basename : simpl never.

(** The facet and the body sub-mesh of a mesh with cell types [ct]. *)
Definition facet_mesh_of (m : Mesh) (ct : CellTypes) (name : string) (tags : Tags)
    : Mesh :=
  sub_mesh m (facet_type ct) (prune ct) name tags.
Definition body_mesh_of (m : Mesh) (ct : CellTypes) (name : string) (tags : Tags)
    : Mesh :=
  sub_mesh m (body_type ct) (prune ct) name tags.

(** The two output paths of a mesh file. *)
Definition xdmf_file_of (msh_file : string) : string :=
  Str.replace msh_file ".msh" ".xdmf".
Definition xdmf_facet_marker_file_of (msh_file : string) : string :=
  Str.replace msh_file ".msh" "_facet_markers.xdmf".

(** The events that precede the construction of the sub-meshes. *)
Definition before_meshes (e : event) : Prop :=
  match e with
  | EvGmsh _ | EvRead _ _ => True
  | EvMesh _ | EvWrite _ _ => False
  end.

Section PipelineRuns.

Variable glob : gmap string file -> string -> list string.
Variable gmsh : string -> gmap string file -> gmap string file * option exn.
Variable write_error : gmap string file -> string -> option exn.

Lemma locate_file_run (basename : string) (w : World) :
  ∃ r, _locate_file glob basename w = (r, w) ∧
       (r = Ok None ∨ r = Raise AssertionError ∨
        ∃ f, r = Ok (Some f) ∧ has_key (fs w) f = true ∧
             Str.contains basename f = true).
Proof.
  unfold _locate_file, bind, glob_glob, path_exists, assert, ret, raise.
  destruct (find _ _) as [f |] eqn:Hfind; [| eauto].
  apply find_some in Hfind as [_ Hf].
  destruct (has_key (fs w) f) eqn:Hex; eauto 8.
Qed.

(** The mesh file that a run works on: the one [_locate_file] returns for
    the name of the geometry file with [.geo] replaced by [.msh]. *)
Definition located (geo_file : string) (w : World) (msh_file : string) : Prop :=
  has_key (fs w) geo_file = true ∧
  snd (path.splitext geo_file) = ".geo"%string ∧
  _locate_file glob (Str.replace (path.basename geo_file) ".geo" ".msh") w
    = (Ok (Some msh_file), w).

(** The world after a run that has parsed the mesh [m] from [msh_file] and
    written the sub-meshes of [written]: each is allocated after [m], in
    order, and written to its path. *)
Definition world_after (w : World) (msh_file : string) (m : Mesh)
    (written : list (string * Mesh)) : World :=
  {| heap := heap w ++ m :: (snd <$> written);
     fs := foldl (fun f pm => <[fst pm := XdmfFile (snd pm)]> f) (fs w) written;
     trace := trace w ++ EvRead msh_file (length (heap w))
                :: concat (imap (fun i pm =>
                                   [EvMesh (length (heap w) + S i);
                                    EvWrite (fst pm) (length (heap w) + S i)])
                                written) |}.

(** The world after the sub-mesh [sub] has been constructed in [w], and
    not written. *)
Definition constructed (sub : Mesh) (w : World) : World :=
  log (EvMesh (length (heap w))) (set_heap (heap w ++ [sub]) w).

(** What a run that constructs no sub-mesh has done: nothing; or it has
    found and read a mesh file; or it has found none and run gmsh. *)
Definition no_mesh_cause (geo_file : string) (w : World) (pre : list event)
    (w' : World) : Prop :=
  (pre = [] ∧ fs w' = fs w) ∨
  (∃ msh_file, located geo_file w msh_file ∧
               pre = [EvRead msh_file (length (heap w))] ∧ fs w' = fs w) ∨
  (_locate_file glob (Str.replace (path.basename geo_file) ".geo" ".msh") w
     = (Ok None, w) ∧
   pre = [EvGmsh geo_file] ∧ fs w' = fst (gmsh geo_file (fs w))).

(** The four kinds of runs: no sub-mesh is constructed; the facet sub-mesh
    is constructed and cannot be written; the facet sub-mesh is written, the
    body sub-mesh is constructed and cannot be written; both are written.
    The mesh that [meshio.read] has returned is consistent, so that once the
    cell types are inferred neither construction fails. *)
Inductive run_kind (geo_file : string) (w : World)
    : result (string * string) → World → Prop :=
  | run_no_mesh (e : exn) (w' : World) (pre : list event) :
      trace w' = trace w ++ pre →
      no_mesh_cause geo_file w pre w' →
      run_kind geo_file w (Raise e) w'
  | run_facet_unwritten (e : exn) (msh_file : string) (m : Mesh) (dim : nat)
        (ct : CellTypes) (name : string) (tags : Tags) :
      located geo_file w msh_file →
      fs w !! msh_file = Some (MshFile m) →
      consistent m →
      inference m = Ok (dim, ct) →
      create_checks m (facet_type ct) = Ok (name, tags) →
      write_error (fs w) (xdmf_facet_marker_file_of msh_file) = Some e →
      run_kind geo_file w (Raise e)
        (constructed (facet_mesh_of m ct name tags) (world_after w msh_file m []))
  | run_body_unwritten (e : exn) (msh_file : string) (m : Mesh) (dim : nat)
        (ct : CellTypes) (fname : string) (ftags : Tags) (bname : string)
        (btags : Tags) :
      located geo_file w msh_file →
      fs w !! msh_file = Some (MshFile m) →
      consistent m →
      inference m = Ok (dim, ct) →
      create_checks m (facet_type ct) = Ok (fname, ftags) →
      create_checks m (body_type ct) = Ok (bname, btags) →
      write_error (fs w) (xdmf_facet_marker_file_of msh_file) = None →
      write_error (<[xdmf_facet_marker_file_of msh_file
                       := XdmfFile (facet_mesh_of m ct fname ftags)]> (fs w))
                  (xdmf_file_of msh_file) = Some e →
      run_kind geo_file w (Raise e)
        (constructed (body_mesh_of m ct bname btags)
           (world_after w msh_file m
              [(xdmf_facet_marker_file_of msh_file,
                facet_mesh_of m ct fname ftags)]))
  | run_both (msh_file : string) (m : Mesh) (dim : nat) (ct : CellTypes)
        (fname : string) (ftags : Tags) (bname : string) (btags : Tags) :
      located geo_file w msh_file →
      fs w !! msh_file = Some (MshFile m) →
      consistent m →
      inference m = Ok (dim, ct) →
      create_checks m (facet_type ct) = Ok (fname, ftags) →
      create_checks m (body_type ct) = Ok (bname, btags) →
      write_error (fs w) (xdmf_facet_marker_file_of msh_file) = None →
      write_error (<[xdmf_facet_marker_file_of msh_file
                       := XdmfFile (facet_mesh_of m ct fname ftags)]> (fs w))
                  (xdmf_file_of msh_file) = None →
      run_kind geo_file w
        (Ok (xdmf_file_of msh_file, xdmf_facet_marker_file_of msh_file))
        (world_after w msh_file m
           [(xdmf_facet_marker_file_of msh_file, facet_mesh_of m ct fname ftags);
            (xdmf_file_of msh_file, body_mesh_of m ct bname btags)]).

Lemma world_after_nil (w : World) (msh_file : string) (m : Mesh) :
  log (EvRead msh_file (length (heap w))) (set_heap (heap w ++ [m]) w)
  = world_after w msh_file m [].
Proof. reflexivity. Qed.

Lemma world_after_snoc (w : World) (msh_file : string) (m : Mesh)
    (written : list (string * Mesh)) (filename : string) (sub : Mesh) :
  log (EvWrite filename (length (heap (world_after w msh_file m written))))
      (set_fs (<[filename := XdmfFile sub]> (fs (world_after w msh_file m written)))
              (constructed sub (world_after w msh_file m written)))
  = world_after w msh_file m (written ++ [(filename, sub)]).
Proof.
  unfold constructed, world_after, log, set_fs, set_heap. simpl.
  rewrite fmap_app, foldl_app, imap_app, concat_app. simpl.
  f_equal; [now rewrite <- app_assoc |].
  rewrite length_app. simpl length. rewrite length_fmap, Nat.add_0_r.
  rewrite <- !app_assoc. reflexivity.
Qed.

Lemma constructed_lookup (sub : Mesh) (w : World) :
  heap (constructed sub w) !! length (heap w) = Some sub.
Proof. simpl. now apply list_lookup_middle. Qed.

(** A sub-mesh that has just been constructed is written when the file
    system takes the file, and otherwise the writer raises and the world
    stays as it is. *)
Lemma write_new_mesh (filename : string) (sub : Mesh) (w : World) :
  write_error (fs w) filename = None →
  meshio_write write_error filename (length (heap w)) (constructed sub w)
  = (Ok tt,
     log (EvWrite filename (length (heap w)))
         (set_fs (<[filename := XdmfFile sub]> (fs w)) (constructed sub w))).
Proof.
  intros Hw. unfold meshio_write, bind, deref.
  rewrite constructed_lookup. simpl. now rewrite Hw.
Qed.

Lemma write_new_mesh_fails (filename : string) (sub : Mesh) (w : World)
    (e : exn) :
  write_error (fs w) filename = Some e →
  meshio_write write_error filename (length (heap w)) (constructed sub w)
  = (Raise e, constructed sub w).
Proof.
  intros Hw. unfold meshio_write, bind, deref.
  rewrite constructed_lookup. simpl. now rewrite Hw.
Qed.

Lemma world_after_mesh (w : World) (msh_file : string) (m : Mesh)
    (written : list (string * Mesh)) :
  heap (world_after w msh_file m written) !! length (heap w) = Some m.
Proof. simpl. now apply list_lookup_middle. Qed.

Ltac run_fails pre :=
  simpl; eapply run_no_mesh with pre;
  [simpl; rewrite ?app_nil_r; reflexivity
  | unfold no_mesh_cause; simpl; eauto 10].

Lemma generate_run (geo_file : string) (w : World) :
  holds (generate_xdmf_mesh glob gmsh write_error geo_file) w (run_kind geo_file w).
Proof.
  unfold generate_xdmf_mesh.
  apply holds_bind. unfold holds at 1, path_exists at 1. simpl.
  apply holds_bind. unfold holds at 1, assert at 1.
  destruct (has_key (fs w) geo_file) eqn:Hgeo; [| run_fails (@nil event)]. simpl.
  apply holds_bind. unfold holds at 1, assert at 1.
  destruct (String.eqb_spec (snd (path.splitext geo_file)) ".geo") as [Hext |];
    [| run_fails (@nil event)]. simpl.
  apply holds_bind.
  destruct (locate_file_run (Str.replace (path.basename geo_file) ".geo" ".msh") w)
    as (r & Hloc & Hr).
  eapply holds_run; [exact Hloc |].
  destruct Hr as [-> | [-> | (msh_file & -> & Hex & _)]];
    [| run_fails (@nil event) |].
  - (* no mesh file: gmsh runs, and [msh_file] is still [None] *)
    apply holds_bind. unfold holds at 1, try_except, subprocess_run_gmsh, raise.
    destruct (snd (gmsh geo_file (fs w))) as [e |].
    + destruct (is_SubprocessError e); run_fails [EvGmsh geo_file].
    + simpl. apply holds_bind. unfold holds at 1, raise.
      run_fails [EvGmsh geo_file].
  - (* a mesh file was found *)
    assert (Hlocated : located geo_file w msh_file) by (repeat split; assumption).
    apply holds_bind. unfold holds at 1, ret at 1. simpl.
    apply holds_bind. apply holds_bind. unfold holds at 1, path_exists at 1. simpl.
    apply holds_bind. unfold holds at 1, assert at 1. rewrite Hex. simpl.
    unfold holds at 1, ret at 1. simpl.
    apply holds_bind. unfold holds at 1, meshio_read.
    destruct (fs w !! msh_file) as [[m | m |] |] eqn:Hfile;
      try (run_fails (@nil event)).
    destruct (cell_data_ok (cells m) (cell_data m)) eqn:Hcons;
      [| run_fails (@nil event)].
    simpl. rewrite world_after_nil.
    apply holds_bind. unfold holds at 1, deref. rewrite world_after_mesh. simpl.
    apply holds_bind. unfold holds at 1, lift. simpl.
    destruct (determine_dimension m) as [dim | e] eqn:Hdim;
      [| run_fails [EvRead msh_file (length (heap w))]].
    apply holds_bind. unfold holds at 1, lift. simpl.
    destruct (specify_cell_types dim) as [ct | e] eqn:Hct;
      [| run_fails [EvRead msh_file (length (heap w))]].
    assert (Hinf : inference m = Ok (dim, ct)).
    { unfold inference. now rewrite Hdim, Hct. }
    destruct (inference_checks_pass m dim ct Hcons Hinf)
      as [(fname & ftags & Hfacet) (bname & btags & Hbody)].
    (* the facet mesh *)
    apply holds_bind. unfold holds at 1. rewrite create_run, world_after_mesh.
    rewrite Hfacet. cbn [fst snd]. cbv beta iota.
    fold (constructed (sub_mesh m (facet_type ct) (prune ct) fname ftags)
            (world_after w msh_file m [])).
    apply holds_bind.
    destruct (write_error (fs (world_after w msh_file m []))
                (Str.replace msh_file ".msh" "_facet_markers.xdmf"))
      as [e |] eqn:Hwf.
    { eapply holds_run; [apply write_new_mesh_fails; exact Hwf |].
      eapply run_facet_unwritten; eassumption. }
    eapply holds_run; [apply write_new_mesh; exact Hwf |]. cbv beta iota.
    rewrite world_after_snoc. cbn [app].
    (* the body mesh *)
    apply holds_bind. unfold holds at 1. rewrite create_run, world_after_mesh.
    rewrite Hbody. cbn [fst snd]. cbv beta iota.
    fold (constructed (sub_mesh m (body_type ct) (prune ct) bname btags)
            (world_after w msh_file m
               [(Str.replace msh_file ".msh" "_facet_markers.xdmf",
                 sub_mesh m (facet_type ct) (prune ct) fname ftags)])).
    apply holds_bind.
    destruct (write_error
                (fs (world_after w msh_file m
                       [(Str.replace msh_file ".msh" "_facet_markers.xdmf",
                         sub_mesh m (facet_type ct) (prune ct) fname ftags)]))
                (Str.replace msh_file ".msh" ".xdmf"))
      as [e |] eqn:Hwb.
    { eapply holds_run; [apply write_new_mesh_fails; exact Hwb |].
      eapply run_body_unwritten; eassumption. }
    eapply holds_run; [apply write_new_mesh; exact Hwb |]. cbv beta iota.
    rewrite world_after_snoc. cbn [app].
    unfold holds, ret. cbn [fst snd]. eapply run_both; eassumption.
Qed.

(** The statement of the amended C3 about a run from [w] that ends with
    [res] in [w'].  The new events are those before the sub-meshes, followed
    by one of: nothing; the facet mesh, whose file could not be written; the
    facet mesh, its file and the body mesh, whose file could not be written;
    the facet mesh, its file, the body mesh and its file.  Each file is
    written after its sub-mesh is constructed and the facet file before the
    body sub-mesh is.  A run that fails has written a file only in the third
    case, where both sub-meshes are constructed and the failure is that of
    the writing of the body file. *)
Definition write_order (geo_file : string) (w : World)
    (res : result (string * string)) (w' : World) : Prop :=
  ∃ pre,
    Forall before_meshes pre ∧
    (((∃ e, res = Raise e) ∧
      trace w' = trace w ++ pre ∧
      (fs w' = fs w ∨ fs w' = fst (gmsh geo_file (fs w))))
     ∨
     (∃ e f facet pf,
        res = Raise e ∧
        write_error (fs w) pf = Some e ∧
        trace w' = trace w ++ pre ++ [EvMesh f] ∧
        heap w' !! f = Some facet ∧
        fs w' = fs w)
     ∨
     (∃ e f facet pf b body pb,
        res = Raise e ∧
        write_error (<[pf := XdmfFile facet]> (fs w)) pb = Some e ∧
        trace w' = trace w ++ pre ++ [EvMesh f; EvWrite pf f; EvMesh b] ∧
        heap w' !! f = Some facet ∧
        heap w' !! b = Some body ∧
        fs w' = <[pf := XdmfFile facet]> (fs w))
     ∨
     (∃ f facet pf b body pb,
        res = Ok (pb, pf) ∧
        trace w' = trace w ++ pre ++ [EvMesh f; EvWrite pf f; EvMesh b; EvWrite pb b] ∧
        heap w' !! f = Some facet ∧
        heap w' !! b = Some body ∧
        fs w' = <[pb := XdmfFile body]> (<[pf := XdmfFile facet]> (fs w)))).

Lemma world_after_lookup (w : World) (msh_file : string) (m : Mesh)
    (written : list (string * Mesh)) (i : nat) (filename : string) (sub : Mesh) :
  written !! i = Some (filename, sub) →
  heap (world_after w msh_file m written) !! (length (heap w) + S i) = Some sub.
Proof.
  intros Hi. simpl. rewrite lookup_app_r by lia.
  replace (length (heap w) + S i - length (heap w)) with (S i) by lia.
  simpl. now rewrite list_lookup_fmap, Hi.
Qed.

Lemma constructed_lookup_before (sub : Mesh) (w : World) (i : nat) (x : Mesh) :
  heap w !! i = Some x → heap (constructed sub w) !! i = Some x.
Proof. intros Hi. simpl. now apply lookup_app_l_Some. Qed.

(** C3, amended. No output file is written before the facet sub-mesh has
    been constructed, and the body file is not written before the body
    sub-mesh has been constructed; the facet file, however, is written
    before the body sub-mesh is constructed.  A run in which a sub-mesh is
    not constructed has written no output file: when a run fails, an output
    file has been written only if both sub-meshes were constructed and the
    writing of the body file failed, and the file is then the facet file. *)
Theorem writes_follow_construction (geo_file : string) (w : World) :
  write_order geo_file w
    (fst (generate_xdmf_mesh glob gmsh write_error geo_file w))
    (snd (generate_xdmf_mesh glob gmsh write_error geo_file w)).
Proof.
  destruct (generate_run geo_file w)
    as [e w' pre Htrace Hcause
       | e msh_file m dim ct name tags _ _ _ _ _ Hwf
       | e msh_file m dim ct fname ftags bname btags _ _ _ _ _ _ _ Hwb
       | msh_file m dim ct fname ftags bname btags _ _ _ _ _ _ _ _].
  - exists pre. split.
    + destruct Hcause as [[-> _] | [(? & _ & -> & _) | (_ & -> & _)]];
        repeat constructor.
    + left. split; [eauto |]. split; [exact Htrace |].
      destruct Hcause as [[_ ?] | [(? & _ & _ & ?) | (_ & _ & ?)]]; auto.
  - exists [EvRead msh_file (length (heap w))].
    split; [repeat constructor |]. right. left.
    exists e, (length (heap (world_after w msh_file m []))), (facet_mesh_of m ct name tags),
      (xdmf_facet_marker_file_of msh_file).
    split; [reflexivity |]. split; [exact Hwf |].
    split; [simpl; now rewrite <- app_assoc |].
    split; [apply constructed_lookup | reflexivity].
  - exists [EvRead msh_file (length (heap w))].
    split; [repeat constructor |]. right. right. left.
    exists e, (length (heap w) + 1), (facet_mesh_of m ct fname ftags),
      (xdmf_facet_marker_file_of msh_file),
      (length (heap (world_after w msh_file m
                       [(xdmf_facet_marker_file_of msh_file,
                         facet_mesh_of m ct fname ftags)]))),
      (body_mesh_of m ct bname btags), (xdmf_file_of msh_file).
    split; [reflexivity |]. split; [exact Hwb |].
    split; [simpl; now rewrite <- app_assoc |].
    split; [| split; [apply constructed_lookup | reflexivity]].
    apply constructed_lookup_before.
    eapply (world_after_lookup w msh_file m _ 0); reflexivity.
  - exists [EvRead msh_file (length (heap w))].
    split; [repeat constructor |]. right. right. right.
    eexists _, _, _, _, _, _. split; [reflexivity |]. split; [reflexivity |].
    split; [| split; [| reflexivity]].
    + eapply (world_after_lookup w msh_file m _ 0); reflexivity.
    + eapply (world_after_lookup w msh_file m _ 1); reflexivity.
Qed.

(** The statement of C10 about a run from [w] that returned the pair
    [(xdmf_file, xdmf_facet_marker_file)] in [w']. *)
Definition returned_paths (geo_file : string) (w : World)
    (xdmf_file xdmf_facet_marker_file : string) (w' : World) : Prop :=
  ∃ msh_file m b body btags f facet ftags,
    located geo_file w msh_file ∧
    fs w !! msh_file = Some (MshFile m) ∧
    xdmf_file = Str.replace msh_file ".msh" ".xdmf" ∧
    xdmf_facet_marker_file = Str.replace msh_file ".msh" "_facet_markers.xdmf" ∧
    (* the first path is the file of the body mesh *)
    heap w' !! b = Some body ∧
    cell_data body = {[ cell_markers := [btags] ]} ∧
    EvWrite xdmf_file b ∈ trace w' ∧
    fs w' !! xdmf_file = Some (XdmfFile body) ∧
    (* the second path is the file of the facet mesh *)
    heap w' !! f = Some facet ∧
    cell_data facet = {[ facet_markers := [ftags] ]} ∧
    EvWrite xdmf_facet_marker_file f ∈ trace w' ∧
    (xdmf_facet_marker_file ≠ xdmf_file →
     fs w' !! xdmf_facet_marker_file = Some (XdmfFile facet)).

Lemma checked_name (m : Mesh) (dim : nat) (ct : CellTypes) (t name : string)
    (tags : Tags) :
  inference m = Ok (dim, ct) → create_checks m t = Ok (name, tags) →
  (t = body_type ct → name = cell_markers) ∧
  (t = facet_type ct → name = facet_markers).
Proof.
  intros Hinf Hchk. apply create_checks_Ok in Hchk as (_ & _ & _ & Hname & _).
  now apply (role_names m dim ct).
Qed.

(** C10. A successful run returns a pair of paths: first the path of the
    file that holds the body mesh, then the path of the file that holds the
    facet mesh. *)
Theorem returns_body_then_facet_path (geo_file : string) (w : World)
    (xdmf_file xdmf_facet_marker_file : string) (w' : World) :
  generate_xdmf_mesh glob gmsh write_error geo_file w
    = (Ok (xdmf_file, xdmf_facet_marker_file), w') →
  returned_paths geo_file w xdmf_file xdmf_facet_marker_file w'.
Proof.
  intros Hrun. pose proof (generate_run geo_file w) as Hkind.
  unfold holds in Hkind. rewrite Hrun in Hkind. simpl in Hkind.
  inversion Hkind as [| | | msh_file m dim ct fname ftags bname btags
                              Hloc Hfile _ Hinf Hfacet Hbody _ _ [Hb Hf] Hw].
  destruct (checked_name _ _ _ _ _ _ Hinf Hfacet) as [_ Hfname].
  destruct (checked_name _ _ _ _ _ _ Hinf Hbody) as [Hbname _].
  specialize (Hfname eq_refl). specialize (Hbname eq_refl).
  subst fname bname xdmf_file xdmf_facet_marker_file w'.
  exists msh_file, m, (length (heap w) + 2), (body_mesh_of m ct cell_markers btags),
    btags, (length (heap w) + 1), (facet_mesh_of m ct facet_markers ftags), ftags.
  split; [exact Hloc |]. split; [exact Hfile |].
  split; [reflexivity |]. split; [reflexivity |].
  split; [eapply (world_after_lookup w msh_file m _ 1); reflexivity |].
  split; [reflexivity |].
  split; [simpl; apply elem_of_app; right; repeat constructor |].
  split; [simpl; apply lookup_insert_eq |].
  split; [eapply (world_after_lookup w msh_file m _ 0); reflexivity |].
  split; [reflexivity |].
  split; [simpl; apply elem_of_app; right; repeat constructor |].
  intros Hne. simpl.
  rewrite lookup_insert_ne by (intros Heq; apply Hne; symmetry; exact Heq).
  apply lookup_insert_eq.
Qed.

(** When no mesh file is found the run ends with an exception, whatever
    gmsh does: [msh_file] stays [None]. *)
Lemma generate_without_mesh_file (geo_file : string) (w : World) :
  _locate_file glob (Str.replace (path.basename geo_file) ".geo" ".msh") w
    = (Ok None, w) →
  ∃ e, fst (generate_xdmf_mesh glob gmsh write_error geo_file w) = Raise e.
Proof.
  intros Hloc. pose proof (generate_run geo_file w) as Hkind.
  unfold holds in Hkind.
  destruct (generate_xdmf_mesh glob gmsh write_error geo_file w)
    as [[paths | e] w']; simpl in *; [| eauto].
  inversion Hkind as [| | | msh_file m dim ct fname ftags bname btags
                              (_ & _ & Hloc') _ _ _ _ _ _ _].
  congruence.
Qed.

Ltac not_gmsh :=
  let H := fresh in
  intros H;
  repeat first [apply elem_of_app in H as [H | H]
               | apply elem_of_cons in H as [H | H]];
  try exact H; try discriminate H; try (now apply elem_of_nil in H).

(** When a mesh file is found gmsh is not run: the run adds no event of
    gmsh to the log. *)
Lemma generate_with_mesh_file (geo_file msh_file : string) (w : World) (g : string) :
  located geo_file w msh_file →
  EvGmsh g ∈ trace (snd (generate_xdmf_mesh glob gmsh write_error geo_file w)) →
  EvGmsh g ∈ trace w.
Proof.
  intros (_ & _ & Hloc).
  destruct (generate_run geo_file w)
    as [e w' pre Htrace Hcause
       | e msh_file' m dim ct name tags _ _ _ _ _ _
       | e msh_file' m dim ct fname ftags bname btags _ _ _ _ _ _ _ _
       | msh_file' m dim ct fname ftags bname btags _ _ _ _ _ _ _ _].
  - rewrite Htrace.
    destruct Hcause as [[-> _] | [(? & _ & -> & _) | (Hnone & _ & _)]];
      [now rewrite app_nil_r | not_gmsh | congruence].
  - simpl. not_gmsh.
  - simpl. not_gmsh.
  - simpl. not_gmsh.
Qed.

End PipelineRuns.

(** * Further properties of the module *)

(** ** [_create_meshio_mesh]: which exception, and what a failure leaves *)

Lemma get_cell_data_Raise (m : Mesh) (t : string) (e : exn) :
  is_Some (cell_data m !! gmsh_physical) →
  get_cell_data m gmsh_physical t = Raise e → e = ValueError.
Proof.
  intros [vl Hf]. unfold get_cell_data, np_concatenate. rewrite Hf.
  destruct (snd <$> filter _ (zip (cells m) vl)); congruence.
Qed.

Lemma data_name_of_Raise_kind (m : Mesh) (t : string) (e : exn) :
  data_name_of m t = Raise e → e = RuntimeError.
Proof.
  unfold data_name_of.
  repeat match goal with |- context [if ?b then _ else _] => destruct b end;
    congruence.
Qed.

(** X1. The exception of a call tells what was wrong: [AssertionError] for
    an argument that is no mesh object, for a cell type other than line,
    triangle and tetra, and for a mesh without the field gmsh:physical;
    [ValueError] when the field has no tags for a block of the cell type;
    [RuntimeError] when the tags are there and the mesh has no triangle
    cells, or has tetra cells while the cell type is line.  In each of
    these cases the world is left as it was: no object is allocated. *)
Theorem create_error_kinds (w : World) (mesh : ref) (cell_type : string)
    (prune_z : bool) :
  (heap w !! mesh = None →
   _create_meshio_mesh mesh cell_type prune_z w = (Raise AssertionError, w)) ∧
  (∀ m, heap w !! mesh = Some m →
     (cell_type ∉ supported_cell_types →
      _create_meshio_mesh mesh cell_type prune_z w = (Raise AssertionError, w)) ∧
     (cell_type ∈ supported_cell_types → cell_data m !! gmsh_physical = None →
      _create_meshio_mesh mesh cell_type prune_z w = (Raise AssertionError, w)) ∧
     (cell_type ∈ supported_cell_types → is_Some (cell_data m !! gmsh_physical) →
      ¬ has_tag_entry m cell_type →
      _create_meshio_mesh mesh cell_type prune_z w = (Raise ValueError, w)) ∧
     (cell_type ∈ supported_cell_types → has_tag_entry m cell_type →
      ¬ has_cells m triangle ∨ (has_cells m tetra ∧ cell_type = line) →
      _create_meshio_mesh mesh cell_type prune_z w = (Raise RuntimeError, w))).
Proof.
  split; [intros Hm; now rewrite create_run, Hm |].
  intros m Hm. rewrite create_run, Hm. unfold create_checks.
  rewrite cell_data_dict_has_key.
  split; [| split; [| split]].
  - intros Hct. now rewrite bool_decide_eq_false_2.
  - intros Hct Hf. rewrite bool_decide_eq_true_2 by assumption.
    apply has_key_false in Hf. now rewrite Hf.
  - intros Hct Hf Hno. rewrite bool_decide_eq_true_2 by assumption.
    apply has_key_true in Hf as Hkey. rewrite Hkey.
    destruct (get_cell_data m gmsh_physical cell_type) as [tags | e] eqn:Hget.
    + exfalso. apply Hno, get_cell_data_Ok_iff. eauto.
    + now rewrite (get_cell_data_Raise _ _ _ Hf Hget).
  - intros Hct Htag Hrole. rewrite bool_decide_eq_true_2 by assumption.
    assert (Hkey : has_key (cell_data m) gmsh_physical = true).
    { apply has_key_true. destruct Htag as (vl & _ & _ & Hf & _). eauto. }
    rewrite Hkey.
    apply get_cell_data_Ok_iff in Htag as Hget. destruct Hget as [tags ->].
    destruct (data_name_of m cell_type) as [name | e] eqn:Hname.
    + exfalso. apply data_name_of_Ok in Hname as [Htri Hname].
      destruct Hrole as [Hno | [Htet ->]]; [contradiction |].
      destruct Hname as [[? _] | [_ [[Heq _] | [Heq _]]]];
        [contradiction | discriminate Heq | discriminate Heq].
    + now rewrite (data_name_of_Raise_kind _ _ _ Hname).
Qed.

(** ** [_create_meshio_mesh]: the tags stay with their cells *)

(** The cells of the blocks of type [t] of a mesh, each with the tag that
    the field [value_list] gives it. *)
Definition tagged_cells (cs : list CellBlock) (value_list : list Tags) (t : string)
    : list (list Z * Z) :=
  concat ((fun cd : CellBlock * Tags => zip (cb_data (fst cd)) (snd cd))
            <$> filter (fun cd : CellBlock * Tags => cb_type (fst cd) = t)
                       (zip cs value_list)).

Lemma zip_blocks (t : string) (cs : list CellBlock) (vl : list Tags) :
  block_data_ok cs vl = true →
  zip (concat (cb_data <$> filter (fun c => cb_type c = t) cs))
      (concat (snd <$> filter (fun cd : CellBlock * Tags => cb_type (fst cd) = t)
                              (zip cs vl)))
  = tagged_cells cs vl t.
Proof.
  unfold block_data_ok, tagged_cells. revert vl.
  induction cs as [| c cs IH]; intros [| v vl]; simpl; try reflexivity;
    try discriminate.
  intros H. apply andb_prop in H as [Hlen H]. apply andb_prop in H as [Hv H].
  apply Nat.eqb_eq in Hv.
  assert (IH' := IH vl). rewrite Hlen, H in IH'. specialize (IH' eq_refl).
  rewrite !filter_cons. simpl.
  destruct (decide (cb_type c = t)); simpl; [| exact IH'].
  etransitivity;
    [apply (zip_with_app pair (cb_data c) _ v _); symmetry; exact Hv |].
  f_equal. exact IH'.
Qed.

(** The statement of X2 about the sub-mesh behind [out]. *)
Definition tags_with_cells (m : Mesh) (cell_type : string) (w' : World) (out : ref)
    : Prop :=
  ∃ value_list sub cs name tags,
    cell_data m !! gmsh_physical = Some value_list ∧
    heap w' !! out = Some sub ∧
    cells sub = [mkCellBlock cell_type cs] ∧
    cell_data sub = {[ name := [tags] ]} ∧
    zip cs tags = tagged_cells (cells m) value_list cell_type.

(** X2. On a mesh whose tag arrays fit its cell blocks, the k-th tag of the
    sub-mesh is the tag that the mesh gives to the k-th cell of the sub-mesh:
    cells and tags, paired up, are the tagged cells of the blocks of that
    type, block after block. *)
Theorem tags_follow_cells (w : World) (mesh : ref) (m : Mesh)
    (cell_type : string) (prune_z : bool) (out : ref) (w' : World) :
  heap w !! mesh = Some m → consistent m →
  _create_meshio_mesh mesh cell_type prune_z w = (Ok out, w') →
  tags_with_cells m cell_type w' out.
Proof.
  intros Hm Hok Hrun.
  destruct (create_Ok _ _ _ _ _ _ _ Hm Hrun) as (name & tags & Hchk & _ & _ & Hout).
  apply create_checks_Ok in Hchk as (_ & _ & Hget & _ & _).
  unfold get_cell_data, np_concatenate in Hget.
  destruct (cell_data m !! gmsh_physical) as [vl |] eqn:Hf; [| discriminate].
  exists vl, (sub_mesh m cell_type prune_z name tags),
    (get_cells_type m cell_type), name, tags.
  split; [exact Hf |]. split; [exact Hout |].
  split; [reflexivity |]. split; [reflexivity |].
  rewrite <- (zip_blocks cell_type _ _ (consistent_field _ _ _ Hok Hf)).
  unfold get_cells_type.
  destruct (snd <$> filter _ (zip (cells m) vl)); [discriminate |].
  now injection Hget as <-.
Qed.

(** ** [_create_meshio_mesh]: calling it again *)

(** X3. A second call with the same arguments, after a successful first
    one, succeeds too; it returns another object, with the same points,
    cells and cell data as the first. *)
Theorem create_twice (w : World) (mesh : ref) (m : Mesh) (cell_type : string)
    (prune_z : bool) (out1 : ref) (w1 : World) :
  heap w !! mesh = Some m →
  _create_meshio_mesh mesh cell_type prune_z w = (Ok out1, w1) →
  ∃ out2 w2 sub,
    _create_meshio_mesh mesh cell_type prune_z w1 = (Ok out2, w2) ∧
    out2 ≠ out1 ∧
    heap w2 !! out1 = Some sub ∧ heap w2 !! out2 = Some sub.
Proof.
  intros Hm Hrun.
  destruct (create_Ok _ _ _ _ _ _ _ Hm Hrun)
    as (name & tags & Hchk & Hout1 & Hw1 & Hsub).
  assert (Hm1 : heap w1 !! mesh = Some m).
  { rewrite Hw1. simpl. rewrite lookup_app_l; [exact Hm |].
    now apply lookup_lt_Some in Hm. }
  eexists (length (heap w1)), _, (sub_mesh m cell_type prune_z name tags).
  split; [rewrite create_run, Hm1, Hchk; reflexivity |].
  apply lookup_lt_Some in Hsub as Hlt.
  split; [lia |]. simpl. split.
  - rewrite lookup_app_l by exact Hlt. exact Hsub.
  - now apply list_lookup_middle.
Qed.

(** X4. A sub-mesh cannot be split again: its only field is [cell_markers]
    or [facet_markers], so a call on the object that a call has returned
    ends with [AssertionError], whatever the cell type, and changes
    nothing. *)
Theorem create_on_sub_mesh_raises (w : World) (mesh : ref) (m : Mesh)
    (cell_type : string) (prune_z : bool) (out : ref) (w' : World)
    (cell_type' : string) (prune_z' : bool) :
  heap w !! mesh = Some m →
  _create_meshio_mesh mesh cell_type prune_z w = (Ok out, w') →
  _create_meshio_mesh out cell_type' prune_z' w' = (Raise AssertionError, w').
Proof.
  intros Hm Hrun.
  destruct (create_Ok _ _ _ _ _ _ _ Hm Hrun) as (name & tags & Hchk & _ & _ & Hout).
  apply create_checks_Ok in Hchk as (_ & _ & _ & Hname & _).
  rewrite create_run, Hout. unfold create_checks.
  case_bool_decide; [| reflexivity].
  rewrite cell_data_dict_has_key.
  assert (Hno : has_key (cell_data (sub_mesh m cell_type prune_z name tags))
                        gmsh_physical = false).
  { apply has_key_false. simpl. apply lookup_singleton_ne.
    apply data_name_of_Ok in Hname
      as [_ [(_ & [[_ ->] | [_ ->]]) | (_ & [[_ ->] | [_ ->]])]]; discriminate. }
  now rewrite Hno.
Qed.

(** ** The inference of the dimension: which exception *)

Lemma physical_has_None (m : Mesh) (t : string) :
  cell_data m !! gmsh_physical = None → physical_has m t = Raise KeyError.
Proof.
  intros Hf. unfold physical_has, cell_data_dict. now rewrite lookup_fmap, Hf.
Qed.

Lemma physical_has_false (m : Mesh) (t : string) :
  is_Some (cell_data m !! gmsh_physical) → ¬ has_tag_entry m t →
  physical_has m t = Ok false.
Proof.
  intros [vl Hf] Hno.
  destruct (physical_has_cases m t) as [[_ Htag] | [[H | H] _]];
    [contradiction | exact H |].
  unfold physical_has, cell_data_dict in H. rewrite lookup_fmap, Hf in H.
  discriminate H.
Qed.

(** X5. The exception of the inference tells what was wrong with the mesh:
    [RuntimeError] when it has no triangle cells (a mesh of tetra cells
    only, for one); [KeyError] when it has triangle cells and no field
    gmsh:physical; [AssertionError] when it has both and the field has no
    tags for the facets (lines without tetra cells, triangles with them). *)
Theorem inference_error_kinds (m : Mesh) :
  (¬ has_cells m triangle → inference m = Raise RuntimeError) ∧
  (has_cells m triangle → cell_data m !! gmsh_physical = None →
   inference m = Raise KeyError) ∧
  (has_cells m triangle → ¬ has_cells m tetra →
   is_Some (cell_data m !! gmsh_physical) → ¬ has_tag_entry m line →
   inference m = Raise AssertionError) ∧
  (has_cells m triangle → has_cells m tetra →
   is_Some (cell_data m !! gmsh_physical) → ¬ has_tag_entry m triangle →
   inference m = Raise AssertionError).
Proof.
  unfold inference, determine_dimension.
  destruct (cells_dict_cases m triangle) as [[-> Htri] | [-> Htri]];
    destruct (cells_dict_cases m tetra) as [[-> Htet] | [-> Htet]]; simpl;
    (split; [| split; [| split]]); try tauto.
  - intros _ Hf. now rewrite physical_has_None.
  - intros _ _ Hf Hno. now rewrite physical_has_false.
  - intros _ Hf. now rewrite physical_has_None.
  - intros _ _ Hf Hno. now rewrite physical_has_false.
Qed.

(** ** [_locate_file] and the runs of [generate_xdmf_mesh] *)

Lemma find_first {A : Type} (p : A → bool) (l : list A) (x : A) :
  List.find p l = Some x →
  ∃ before after,
    l = before ++ x :: after ∧ Forall (fun y => p y = false) before ∧ p x = true.
Proof.
  induction l as [| y l IH]; simpl; [discriminate |].
  destruct (p y) eqn:Hy.
  - intros [= ->]. exists [], l. auto.
  - intros Hfind. destruct (IH Hfind) as (before & after & -> & Hno & Hx).
    exists (y :: before), after. auto.
Qed.

Lemma find_nothing {A : Type} (p : A → bool) (l : list A) :
  List.find p l = None → Forall (fun y => p y = false) l.
Proof.
  induction l as [| y l IH]; simpl; [constructor |].
  destruct (p y) eqn:Hy; [discriminate |]. auto.
Qed.

(** The exception of a run that has found no mesh file, from the outcome of
    gmsh. *)
Definition error_without_mesh_file (outcome : option exn) : exn :=
  match outcome with
  | None => TypeError
  | Some e => if is_SubprocessError e then RuntimeError else e
  end.

Lemma holds_eq {A : Type} (c : M A) (w : World) (r : result A) (w' : World) :
  holds c w (fun r1 w1 => r1 = r ∧ w1 = w') → c w = (r, w').
Proof. unfold holds. destruct (c w) as [r1 w1]. simpl. now intros [-> ->]. Qed.

Section PipelineFacts.

Variable glob : gmap string file -> string -> list string.
Variable gmsh : string -> gmap string file -> gmap string file * option exn.
Variable write_error : gmap string file -> string -> option exn.

(** The paths that [_locate_file] looks through, in its order: the matches
    of the three patterns, one pattern after the other. *)
Definition candidates (basename : string) (f : gmap string file) : list string :=
  glob f (String.append "../*/*/*" (snd (path.splitext basename)))
  ++ glob f (String.append "./*/*" (snd (path.splitext basename)))
  ++ glob f (String.append "./*/*/*" (snd (path.splitext basename))).

(** [f] is the first of [files] that holds [basename] as a substring. *)
Definition first_match (basename : string) (files : list string) (f : string)
    : Prop :=
  ∃ before after,
    files = before ++ f :: after ∧
    Forall (fun g => Str.contains basename g = false) before ∧
    Str.contains basename f = true.

(** X6. [_locate_file] changes nothing.  It returns [None] when no candidate
    holds the name as a substring of its path; otherwise it takes the first
    candidate that does, in the order of the three patterns, and returns it
    if that path exists and ends with [AssertionError] if it does not; no
    later candidate is tried. *)
Theorem locate_file_first_match (basename : string) (w : World) :
  snd (_locate_file glob basename w) = w ∧
  match fst (_locate_file glob basename w) with
  | Ok None =>
      Forall (fun g => Str.contains basename g = false) (candidates basename (fs w))
  | Ok (Some f) =>
      has_key (fs w) f = true ∧ first_match basename (candidates basename (fs w)) f
  | Raise e =>
      e = AssertionError ∧
      ∃ f, has_key (fs w) f = false ∧
           first_match basename (candidates basename (fs w)) f
  end.
Proof.
  unfold _locate_file, bind, glob_glob, path_exists, assert, ret, raise.
  fold (candidates basename (fs w)).
  destruct (find _ _) as [f |] eqn:Hfind.
  - apply find_first in Hfind.
    destruct (has_key (fs w) f) eqn:Hex; simpl; eauto.
  - simpl. split; [reflexivity |]. now apply find_nothing.
Qed.

(** X7. A geometry file that does not exist, or whose extension is not
    [.geo], is refused with [AssertionError] before anything is done: no
    search, no run of gmsh, no file read or written. *)
Theorem generate_refuses_bad_input (geo_file : string) (w : World) :
  has_key (fs w) geo_file = false ∨ snd (path.splitext geo_file) ≠ ".geo"%string →
  generate_xdmf_mesh glob gmsh write_error geo_file w = (Raise AssertionError, w).
Proof.
  intros Hbad. apply holds_eq. unfold generate_xdmf_mesh.
  apply holds_bind. unfold holds at 1, path_exists at 1. simpl.
  apply holds_bind. unfold holds at 1, assert at 1.
  destruct (has_key (fs w) geo_file); [| simpl; auto]. simpl.
  apply holds_bind. unfold holds at 1, assert at 1.
  destruct (String.eqb_spec (snd (path.splitext geo_file)) ".geo") as [Hext |];
    [| simpl; auto].
  destruct Hbad as [? | Hne]; [discriminate | contradiction].
Qed.

(** X8. When the geometry file is accepted and no mesh file is found, gmsh
    is run once and the run ends with an exception: [RuntimeError] if gmsh
    raised a [SubprocessError], the exception of gmsh itself if it raised
    another one, and [TypeError] if gmsh ended well.  The file system is what
    gmsh left; nothing is parsed and no output file is written. *)
Theorem generate_without_mesh_file_raises (geo_file : string) (w : World) :
  has_key (fs w) geo_file = true →
  snd (path.splitext geo_file) = ".geo"%string →
  _locate_file glob (Str.replace (path.basename geo_file) ".geo" ".msh") w
    = (Ok None, w) →
  generate_xdmf_mesh glob gmsh write_error geo_file w
  = (Raise (error_without_mesh_file (snd (gmsh geo_file (fs w)))),
     log (EvGmsh geo_file) (set_fs (fst (gmsh geo_file (fs w))) w)).
Proof.
  intros Hgeo Hext Hloc. apply holds_eq. unfold generate_xdmf_mesh.
  apply holds_bind. unfold holds at 1, path_exists at 1. simpl.
  apply holds_bind. unfold holds at 1, assert at 1. rewrite Hgeo. simpl.
  apply holds_bind. unfold holds at 1, assert at 1. rewrite Hext. simpl.
  apply holds_bind. eapply holds_run; [exact Hloc |].
  apply holds_bind. unfold holds at 1, try_except, subprocess_run_gmsh, raise.
  unfold error_without_mesh_file.
  destruct (snd (gmsh geo_file (fs w))) as [e |].
  - destruct (is_SubprocessError e); simpl; auto.
  - simpl. apply holds_bind. unfold holds at 1, raise. simpl. auto.
Qed.

(** X9. When a mesh file is found, gmsh is not run, and the run changes no
    file but the two output files: every other path holds after the run
    what it held before, whether the run succeeds or not. *)
Theorem generate_touches_only_outputs (geo_file msh_file : string) (w : World) :
  located glob geo_file w msh_file →
  (∀ g, EvGmsh g ∈ trace (snd (generate_xdmf_mesh glob gmsh write_error geo_file w)) →
        EvGmsh g ∈ trace w) ∧
  (∀ p, p ≠ xdmf_file_of msh_file → p ≠ xdmf_facet_marker_file_of msh_file →
        fs (snd (generate_xdmf_mesh glob gmsh write_error geo_file w)) !! p = fs w !! p).
Proof.
  intros Hlocated.
  split; [intros g; now apply (generate_with_mesh_file glob gmsh write_error geo_file msh_file) |].
  destruct Hlocated as (_ & _ & Hloc). intros p Hp Hpf.
  destruct (generate_run glob gmsh write_error geo_file w)
    as [e w' pre Htrace Hcause
       | e msh_file' m dim ct name tags _ _ _ _ _ _
       | e msh_file' m dim ct fname ftags bname btags (_ & _ & Hloc') _ _ _ _ _ _ _
       | msh_file' m dim ct fname ftags bname btags (_ & _ & Hloc') _ _ _ _ _ _ _].
  - destruct Hcause as [[_ ->] | [(? & _ & _ & ->) | (Hnone & _ & _)]];
      [reflexivity | reflexivity | congruence].
  - reflexivity.
  - assert (msh_file' = msh_file) as -> by congruence.
    simpl. now rewrite lookup_insert_ne by (intros Heq; now apply Hpf).
  - assert (msh_file' = msh_file) as -> by congruence.
    simpl. rewrite lookup_insert_ne by (intros Heq; now apply Hp).
    now rewrite lookup_insert_ne by (intros Heq; now apply Hpf).
Qed.

(** X10. The run succeeds whenever the geometry file is accepted, a mesh
    file is found, it holds a mesh whose tag arrays fit its cell blocks, the
    dimension of the mesh is inferred, and the two output files can be
    written, the facet file to the file system as it is and the body file
    once the facet file is there: it returns the two output paths of the
    mesh file. *)
Theorem generate_succeeds (geo_file msh_file : string) (w : World) (m : Mesh)
    (dim : nat) (ct : CellTypes) :
  located glob geo_file w msh_file →
  fs w !! msh_file = Some (MshFile m) →
  consistent m →
  inference m = Ok (dim, ct) →
  write_error (fs w) (xdmf_facet_marker_file_of msh_file) = None →
  (∀ facet,
     write_error (<[xdmf_facet_marker_file_of msh_file := XdmfFile facet]> (fs w))
                 (xdmf_file_of msh_file) = None) →
  fst (generate_xdmf_mesh glob gmsh write_error geo_file w)
  = Ok (xdmf_file_of msh_file, xdmf_facet_marker_file_of msh_file).
Proof.
  intros (Hgeo & Hext & Hloc) Hfile Hok Hinf Hwf Hwb.
  destruct (inference_checks_pass _ _ _ Hok Hinf)
    as [(fname & ftags & Hfacet) (bname & btags & Hbody)].
  assert (Hex : has_key (fs w) msh_file = true).
  { apply has_key_true. rewrite Hfile. eauto. }
  unfold inference in Hinf.
  destruct (determine_dimension m) as [dim' |] eqn:Hdim; [| discriminate].
  destruct (specify_cell_types dim') as [ct' |] eqn:Hct; [| discriminate].
  injection Hinf as -> ->.
  change (holds (generate_xdmf_mesh glob gmsh write_error geo_file) w
            (fun r _ => r = Ok (xdmf_file_of msh_file,
                                xdmf_facet_marker_file_of msh_file))).
  unfold generate_xdmf_mesh.
  apply holds_bind. unfold holds at 1, path_exists at 1. simpl.
  apply holds_bind. unfold holds at 1, assert at 1. rewrite Hgeo. simpl.
  apply holds_bind. unfold holds at 1, assert at 1. rewrite Hext. simpl.
  apply holds_bind. eapply holds_run; [exact Hloc |].
  apply holds_bind. unfold holds at 1, ret at 1. simpl.
  apply holds_bind. apply holds_bind. unfold holds at 1, path_exists at 1. simpl.
  apply holds_bind. unfold holds at 1, assert at 1. rewrite Hex. simpl.
  unfold holds at 1, ret at 1. simpl.
  apply holds_bind. unfold holds at 1, meshio_read. rewrite Hfile, Hok.
  simpl. rewrite world_after_nil.
  apply holds_bind. unfold holds at 1, deref. rewrite world_after_mesh. simpl.
  apply holds_bind. unfold holds at 1, lift. simpl. rewrite Hdim.
  apply holds_bind. unfold holds at 1, lift. simpl. rewrite Hct.
  apply holds_bind. unfold holds at 1.
  rewrite create_run, world_after_mesh, Hfacet.
  cbn [fst snd]. cbv beta iota.
  apply holds_bind.
  eapply holds_run; [apply (write_new_mesh write_error); exact Hwf |].
  cbv beta iota. rewrite world_after_snoc. cbn [app].
  apply holds_bind. unfold holds at 1.
  rewrite create_run, world_after_mesh, Hbody.
  cbn [fst snd]. cbv beta iota.
  apply holds_bind.
  eapply holds_run; [apply (write_new_mesh write_error); apply Hwb |].
  cbv beta iota. reflexivity.
Qed.

(** The statement of X11 about a run from [w] that returned the pair
    [(xdmf_file, xdmf_facet_marker_file)] in [w']. *)
Definition output_contents (geo_file : string) (w : World)
    (xdmf_file xdmf_facet_marker_file : string) (w' : World) : Prop :=
  ∃ msh_file m dim ct body facet,
    located glob geo_file w msh_file ∧
    fs w !! msh_file = Some (MshFile m) ∧
    inference m = Ok (dim, ct) ∧
    (* the files *)
    fs w' !! xdmf_file = Some (XdmfFile body) ∧
    (xdmf_facet_marker_file ≠ xdmf_file →
     fs w' !! xdmf_facet_marker_file = Some (XdmfFile facet)) ∧
    (* their cells *)
    cells body = [mkCellBlock (body_type ct) (get_cells_type m (body_type ct))] ∧
    cells facet = [mkCellBlock (facet_type ct) (get_cells_type m (facet_type ct))] ∧
    (* their points *)
    points facet = points body ∧
    length (points body) = length (points m) ∧
    (dim = 3 → points body = points m) ∧
    (* the mesh object that was parsed *)
    heap w' !! length (heap w) = Some m.

(** X11. After a successful run the first returned path holds the body
    cells of the parsed mesh and the second one its facet cells; both files
    hold the same points, as many as the mesh has, and for a mesh of
    dimension 3 they are the points of the mesh.  The parsed mesh object is
    as it was read. *)
Theorem output_files_hold_sub_meshes (geo_file : string) (w : World)
    (xdmf_file xdmf_facet_marker_file : string) (w' : World) :
  generate_xdmf_mesh glob gmsh write_error geo_file w
    = (Ok (xdmf_file, xdmf_facet_marker_file), w') →
  output_contents geo_file w xdmf_file xdmf_facet_marker_file w'.
Proof.
  intros Hrun. pose proof (generate_run glob gmsh write_error geo_file w) as Hkind.
  unfold holds in Hkind. rewrite Hrun in Hkind. simpl in Hkind.
  inversion Hkind as [| | | msh_file m dim ct fname ftags bname btags
                              Hloc Hfile _ Hinf Hfacet Hbody _ _ [Hb Hf] Hw].
  subst xdmf_file xdmf_facet_marker_file w'.
  exists msh_file, m, dim, ct, (body_mesh_of m ct bname btags),
    (facet_mesh_of m ct fname ftags).
  split; [exact Hloc |]. split; [exact Hfile |]. split; [exact Hinf |].
  split; [simpl; apply lookup_insert_eq |].
  split.
  { intros Hne. simpl.
    rewrite lookup_insert_ne by (intros Heq; apply Hne; symmetry; exact Heq).
    apply lookup_insert_eq. }
  split; [reflexivity |]. split; [reflexivity |]. split; [reflexivity |].
  split; [simpl; destruct (prune ct); [apply length_pruned_points | reflexivity] |].
  split; [| apply world_after_mesh].
  intros ->. apply inference_Ok in Hinf as [(_ & Hdim & _) | (_ & _ & ->)];
    [discriminate Hdim | reflexivity].
Qed.

End PipelineFacts.

Section PipelinePoints.

Variable glob : gmap string file -> string -> list string.
Variable gmsh : string -> gmap string file -> gmap string file * option exn.
Variable write_error : gmap string file -> string -> option exn.

(** The statement of X13 about a run from [w] that returned [xdmf_file]
    first, in [w']. *)
Definition output_points (geo_file : string) (w : World) (xdmf_file : string)
    (w' : World) : Prop :=
  ∃ msh_file m body,
    located glob geo_file w msh_file ∧
    fs w !! msh_file = Some (MshFile m) ∧
    fs w' !! xdmf_file = Some (XdmfFile body) ∧
    (has_cells m tetra → points body = points m) ∧
    (¬ has_cells m tetra → points m ≠ [] → shape1 (points m) = 3 →
     z_all_below_tol (points m) = true →
     points body = first_two_columns (points m)) ∧
    (¬ has_cells m tetra → z_all_below_tol (points m) = false →
     points body = points m).

(** X13. After a successful run on a mesh without tetra cells whose points
    lie in the plane z = 0, up to the tolerance, the body file holds the
    points with two coordinates; when some point is off that plane it holds
    them with all three.  On a mesh with tetra cells it always holds the
    points of the mesh. *)
Theorem planar_model_is_pruned (geo_file : string) (w : World)
    (xdmf_file xdmf_facet_marker_file : string) (w' : World) :
  generate_xdmf_mesh glob gmsh write_error geo_file w
    = (Ok (xdmf_file, xdmf_facet_marker_file), w') →
  output_points geo_file w xdmf_file w'.
Proof.
  intros Hrun. pose proof (generate_run glob gmsh write_error geo_file w) as Hkind.
  unfold holds in Hkind. rewrite Hrun in Hkind. simpl in Hkind.
  inversion Hkind as [| | | msh_file m dim ct fname ftags bname btags
                              Hloc Hfile _ Hinf Hfacet Hbody _ _ [Hb Hf] Hw].
  subst xdmf_file xdmf_facet_marker_file w'.
  exists msh_file, m, (body_mesh_of m ct bname btags).
  split; [exact Hloc |]. split; [exact Hfile |].
  split; [simpl; apply lookup_insert_eq |].
  apply inference_Ok in Hinf as [(Htet & _ & ->) | (Htet & _ & ->)]; simpl.
  - split; [intros ?; contradiction |]. split.
    + intros _ Hne H3 Hz. now apply pruned_points_pruned.
    + intros _ Hz. apply pruned_points_kept. now right.
  - split; [reflexivity |]. split; intros ?; contradiction.
Qed.

End PipelinePoints.

(** ** The output paths of a mesh file that ends with its only [.msh] *)

Lemma append_inj_l (s t1 t2 : string) :
  String.append s t1 = String.append s t2 → t1 = t2.
Proof.
  induction s as [| c s IH]; [now rewrite !append_nil_l |].
  rewrite !append_cons. intros [= H]. auto.
Qed.

(** X12. For a mesh file [stem.msh] in whose path [.msh] occurs at the end
    only, the output paths are [stem.xdmf] and [stem_facet_markers.xdmf]:
    two different paths, next to the mesh file and different from it. *)
Theorem output_paths_of_suffix (stem : string) :
  Str.contains ".msh" (String.append stem ".ms") = false →
  xdmf_file_of (String.append stem ".msh") = String.append stem ".xdmf" ∧
  xdmf_facet_marker_file_of (String.append stem ".msh")
    = String.append stem "_facet_markers.xdmf" ∧
  xdmf_file_of (String.append stem ".msh")
    ≠ xdmf_facet_marker_file_of (String.append stem ".msh") ∧
  xdmf_file_of (String.append stem ".msh") ≠ String.append stem ".msh" ∧
  xdmf_facet_marker_file_of (String.append stem ".msh") ≠ String.append stem ".msh".
Proof.
  intros H. unfold xdmf_file_of, xdmf_facet_marker_file_of.
  rewrite !(replace_msh_suffix stem _ H).
  repeat split; intros Heq; apply append_inj_l in Heq; discriminate Heq.
Qed.

(** * Instances and departures *)

Local Open Scope string_scope.

(** ** Instances of the theorems *)

Lemma dimension_inference_table_witness :
  inference mesh2d
    = Ok (2, {| facet_type := line; body_type := triangle; prune := true |}) ∧
  inference mesh3d
    = Ok (3, {| facet_type := triangle; body_type := tetra; prune := false |}) ∧
  ∃ e, inference mesh_tetra_only = Raise e.
Proof.
  destruct (dimension_inference_table mesh2d) as (H2 & _ & _).
  destruct (dimension_inference_table mesh3d) as (_ & H3 & _).
  destruct (dimension_inference_table mesh_tetra_only) as (_ & _ & Hn).
  split; [| split].
  - apply H2.
    + apply cells_dict_has_key. vm_compute. reflexivity.
    + apply cells_dict_no_key. vm_compute. reflexivity.
    + apply physical_has_true. vm_compute. reflexivity.
  - apply H3.
    + apply cells_dict_has_key. vm_compute. reflexivity.
    + apply cells_dict_has_key. vm_compute. reflexivity.
    + apply physical_has_true. vm_compute. reflexivity.
  - assert (Hno : ¬ has_cells mesh_tetra_only triangle).
    { apply cells_dict_no_key. vm_compute. reflexivity. }
    apply Hn; tauto.
Defined.

Lemma data_name_follows_role_witness :
  named_by_role mesh2d triangle
    (snd (_create_meshio_mesh 0 triangle true (world_of mesh2d))) 1 ∧
  named_by_role mesh3d triangle
    (snd (_create_meshio_mesh 0 triangle false (world_of mesh3d))) 1.
Proof.
  split.
  - apply (data_name_follows_role (world_of mesh2d) 0 mesh2d triangle true);
      [reflexivity | vm_compute; reflexivity].
  - apply (data_name_follows_role (world_of mesh3d) 0 mesh3d triangle false);
      [reflexivity | vm_compute; reflexivity].
Defined.


(** A block without cells is extracted like any other. *)
Example empty_block_is_extracted :
  get_cells_type mesh2d_no_lines line = [] ∧
  fst (_create_meshio_mesh 0 line true (world_of mesh2d_no_lines)) = Ok 1.
Proof. split; vm_compute; reflexivity. Qed.

Lemma prune_z_only_when_flat_witness :
  points_of_sub_mesh mesh2d true
    (snd (_create_meshio_mesh 0 triangle true (world_of mesh2d))) 1.
Proof.
  apply (prune_z_only_when_flat (world_of mesh2d) 0 mesh2d triangle true);
    [reflexivity | vm_compute; reflexivity].
Defined.

Lemma source_mesh_unchanged_witness :
  heap (snd (_create_meshio_mesh 0 triangle true (world_of mesh2d))) !! 0
  = Some mesh2d.
Proof.
  exact (proj1 (source_mesh_unchanged (world_of mesh2d) 0 mesh2d triangle true
                                      eq_refl)).
Defined.

Lemma create_raises_iff_witness :
  (∃ e, fst (_create_meshio_mesh 0 line false (world_of mesh3d)) = Raise e) ↔
  line ∉ supported_cell_types ∨ ¬ has_tag_entry mesh3d line ∨
  ¬ has_cells mesh3d triangle ∨ (has_cells mesh3d tetra ∧ line = line).
Proof.
  apply (create_raises_iff (world_of mesh3d) 0 mesh3d line false);
    [reflexivity | vm_compute; reflexivity].
Defined.

Lemma returns_body_then_facet_path_witness :
  returned_paths (glob_finds ["./mesh/box.msh"]) "./geo/box.geo"
    (world_with_mesh_file "./geo/box.geo" "./mesh/box.msh" mesh2d)
    "./mesh/box.xdmf" "./mesh/box_facet_markers.xdmf" (snd run2d).
Proof.
  apply (returns_body_then_facet_path (glob_finds ["./mesh/box.msh"])
           (gmsh_writes "./geo/box.msh" mesh2d) all_writable).
  vm_compute. reflexivity.
Defined.

(** ** Where the code departs from the specification *)

(** C3, counterexample. In the run on the planar model the facet file is
    written as the third action, before the body sub-mesh (object 2) is
    constructed as the fourth. *)
Lemma facet_file_written_before_body_mesh :
  fst run2d = Ok ("./mesh/box.xdmf", "./mesh/box_facet_markers.xdmf") ∧
  trace (snd run2d)
  = [EvRead "./mesh/box.msh" 0;
     EvMesh 1; EvWrite "./mesh/box_facet_markers.xdmf" 1;
     EvMesh 2; EvWrite "./mesh/box.xdmf" 2].
Proof. split; vm_compute; reflexivity. Qed.

(** C6, counterexample. A triangle in the plane z = 1 is extracted with
    pruning, and the points of the sub-mesh still have their third
    coordinate. *)
Lemma prune_keeps_third_coordinate :
  fst (_create_meshio_mesh 0 triangle true (world_of mesh2d_lifted)) = Ok 1 ∧
  points <$> heap (snd (_create_meshio_mesh 0 triangle true
                          (world_of mesh2d_lifted))) !! 1
  = Some (points mesh2d_lifted) ∧
  points mesh2d_lifted ≠ first_two_columns (points mesh2d_lifted).
Proof. split; [| split]; [vm_compute; reflexivity .. | discriminate]. Qed.

(** C7, counterexample. The lines of a mesh with tetra cells: the cell type
    is supported and the tag field has an entry for it, and the call ends
    with [RuntimeError]. *)
Lemma line_of_a_3d_mesh_raises :
  line ∈ supported_cell_types ∧
  has_tag_entry mesh3d line ∧
  consistent mesh3d ∧
  fst (_create_meshio_mesh 0 line false (world_of mesh3d)) = Raise RuntimeError.
Proof.
  split; [| split; [| split]].
  - apply list_elem_of_here.
  - apply physical_has_true. vm_compute. reflexivity.
  - vm_compute. reflexivity.
  - vm_compute. reflexivity.
Qed.

(** C4, at the failing input. No mesh file is found, gmsh runs and writes
    [./geo/box.msh], and the run ends with [TypeError] at
    [path.exists(msh_file)]: the file that gmsh wrote is on the disk and is
    not read. *)
Theorem generated_mesh_file_is_not_read :
  _locate_file (glob_finds []) "box.msh" (world_without_mesh_file "./geo/box.geo")
    = (Ok None, world_without_mesh_file "./geo/box.geo") ∧
  fst run_without_mesh_file = Raise TypeError ∧
  trace (snd run_without_mesh_file) = [EvGmsh "./geo/box.geo"] ∧
  fs (snd run_without_mesh_file) !! "./geo/box.msh" = Some (MshFile mesh2d).
Proof. repeat split; vm_compute; reflexivity. Qed.

(** C8, at the failing input. The mesh file lies in a directory whose name
    holds [.msh]: both output paths name another directory, and the run
    writes there when these directories exist. *)
Theorem replace_changes_the_directory :
  xdmf_file_of "./a.msh/box.msh" = "./a.xdmf/box.xdmf" ∧
  xdmf_facet_marker_file_of "./a.msh/box.msh"
    = "./a_facet_markers.xdmf/box_facet_markers.xdmf" ∧
  fst run_in_msh_directory
    = Ok ("./a.xdmf/box.xdmf", "./a_facet_markers.xdmf/box_facet_markers.xdmf").
Proof. repeat split; vm_compute; reflexivity. Qed.

(** The run of C8 in a tree without the directories [./a.xdmf] and
    [./a_facet_markers.xdmf]: the facet sub-mesh is constructed, the write
    of its file fails, and the run ends with that exception and has written
    nothing. *)
Example write_fails_without_the_directory :
  fst run_in_msh_directory_alone = Raise OSError ∧
  trace (snd run_in_msh_directory_alone) = [EvRead "./a.msh/box.msh" 0; EvMesh 1] ∧
  fs (snd run_in_msh_directory_alone)
  = fs (world_with_mesh_file "./geo/box.geo" "./a.msh/box.msh" mesh3d).
Proof. repeat split; vm_compute; reflexivity. Qed.

(** The window between the two writes: in a tree with the directory of the
    facet file and without that of the body file, the run fails at the
    second write, after both sub-meshes are constructed, and leaves the
    facet file. *)
Example write_fails_between_the_writes :
  fst run_in_msh_directory_facets_only = Raise OSError ∧
  trace (snd run_in_msh_directory_facets_only)
  = [EvRead "./a.msh/box.msh" 0;
     EvMesh 1; EvWrite "./a_facet_markers.xdmf/box_facet_markers.xdmf" 1;
     EvMesh 2] ∧
  has_key (fs (snd run_in_msh_directory_facets_only))
          "./a_facet_markers.xdmf/box_facet_markers.xdmf" = true ∧
  has_key (fs (snd run_in_msh_directory_facets_only)) "./a.xdmf/box.xdmf" = false.
Proof. repeat split; vm_compute; reflexivity. Qed.

(** ** Instances of the further properties *)

(** A run of gmsh that fails: the process ends with a status other than 0
    and leaves the file system as it was. *)
Definition gmsh_fails (geo_file : string) (f : gmap string file)
    : gmap string file * option exn :=
  (f, Some SubprocessError).

Lemma located_box :
  located (glob_finds ["./mesh/box.msh"]) "./geo/box.geo"
    (world_with_mesh_file "./geo/box.geo" "./mesh/box.msh" mesh2d)
    "./mesh/box.msh".
Proof. repeat split; vm_compute; reflexivity. Qed.

Lemma tags_follow_cells_witness :
  tags_with_cells mesh3d triangle
    (snd (_create_meshio_mesh 0 triangle false (world_of mesh3d))) 1.
Proof.
  apply (tags_follow_cells (world_of mesh3d) 0 mesh3d triangle false);
    [reflexivity | vm_compute; reflexivity | vm_compute; reflexivity].
Defined.

Lemma create_twice_witness :
  ∃ out2 w2 sub,
    _create_meshio_mesh 0 line true
      (snd (_create_meshio_mesh 0 line true (world_of mesh2d))) = (Ok out2, w2) ∧
    out2 ≠ 1 ∧ heap w2 !! 1 = Some sub ∧ heap w2 !! out2 = Some sub.
Proof.
  apply (create_twice (world_of mesh2d) 0 mesh2d line true);
    [reflexivity | vm_compute; reflexivity].
Defined.

Lemma create_on_sub_mesh_raises_witness :
  _create_meshio_mesh 1 triangle false
    (snd (_create_meshio_mesh 0 triangle true (world_of mesh2d)))
  = (Raise AssertionError,
     snd (_create_meshio_mesh 0 triangle true (world_of mesh2d))).
Proof.
  apply (create_on_sub_mesh_raises (world_of mesh2d) 0 mesh2d triangle true);
    [reflexivity | vm_compute; reflexivity].
Defined.

(** A file that is there and is no geometry file. *)
Lemma generate_refuses_bad_input_witness :
  generate_xdmf_mesh (glob_finds ["./mesh/box.msh"])
                     (gmsh_writes "./geo/box.msh" mesh2d)
                     all_writable
                     "./mesh/box.msh"
                     (world_with_mesh_file "./geo/box.geo" "./mesh/box.msh" mesh2d)
  = (Raise AssertionError,
     world_with_mesh_file "./geo/box.geo" "./mesh/box.msh" mesh2d).
Proof.
  apply generate_refuses_bad_input. right. vm_compute. discriminate.
Defined.

(** gmsh fails: the run ends with [RuntimeError]. *)
Lemma generate_without_mesh_file_raises_witness :
  fst (generate_xdmf_mesh (glob_finds []) gmsh_fails all_writable "./geo/box.geo"
         (world_without_mesh_file "./geo/box.geo"))
  = Raise RuntimeError.
Proof.
  rewrite (generate_without_mesh_file_raises (glob_finds []) gmsh_fails
             all_writable);
    vm_compute; reflexivity.
Defined.

Lemma generate_touches_only_outputs_witness :
  fs (snd run2d) !! "./mesh/box.msh" = Some (MshFile mesh2d) ∧
  fs (snd run2d) !! "./geo/box.geo" = Some OtherFile.
Proof.
  destruct (generate_touches_only_outputs (glob_finds ["./mesh/box.msh"])
              (gmsh_writes "./geo/box.msh" mesh2d) all_writable _ _ _ located_box)
    as [_ Hframe].
  unfold run2d. split; rewrite Hframe; try (vm_compute; discriminate);
    vm_compute; reflexivity.
Defined.

Lemma generate_succeeds_witness :
  fst run2d = Ok ("./mesh/box.xdmf", "./mesh/box_facet_markers.xdmf").
Proof.
  unfold run2d.
  rewrite (generate_succeeds (glob_finds ["./mesh/box.msh"])
             (gmsh_writes "./geo/box.msh" mesh2d) all_writable
             _ "./mesh/box.msh" _ mesh2d 2
             {| facet_type := line; body_type := triangle; prune := true |}
             located_box);
    vm_compute; reflexivity.
Defined.

Lemma output_files_hold_sub_meshes_witness :
  output_contents (glob_finds ["./mesh/box.msh"]) "./geo/box.geo"
    (world_with_mesh_file "./geo/box.geo" "./mesh/box.msh" mesh2d)
    "./mesh/box.xdmf" "./mesh/box_facet_markers.xdmf" (snd run2d).
Proof.
  apply (output_files_hold_sub_meshes (glob_finds ["./mesh/box.msh"])
           (gmsh_writes "./geo/box.msh" mesh2d) all_writable).
  vm_compute. reflexivity.
Defined.

Lemma output_paths_of_suffix_witness :
  xdmf_file_of "./mesh/box.msh" = "./mesh/box.xdmf" ∧
  xdmf_facet_marker_file_of "./mesh/box.msh" = "./mesh/box_facet_markers.xdmf".
Proof.
  destruct (output_paths_of_suffix "./mesh/box" eq_refl) as (Hb & Hf & _).
  split; [exact Hb | exact Hf].
Defined.

Lemma planar_model_is_pruned_witness :
  output_points (glob_finds ["./mesh/box.msh"]) "./geo/box.geo"
    (world_with_mesh_file "./geo/box.geo" "./mesh/box.msh" mesh2d)
    "./mesh/box.xdmf" (snd run2d).
Proof.
  apply (planar_model_is_pruned (glob_finds ["./mesh/box.msh"])
           (gmsh_writes "./geo/box.msh" mesh2d) all_writable _ _ _
           "./mesh/box_facet_markers.xdmf").
  vm_compute. reflexivity.
Defined.
